(** * Task-Flow: the scheduling core of [src/App.jsx]

    A shallow embedding of the four pure functions of the planner
    ([checkConflict], [getFreeSlots], [parseTaskFromNL], [checkReminders])
    and of the helpers they call, followed by the properties stated about
    them.

    Conventions of the embedding.
    - A JavaScript [Date] is its [getTime()] value: an integer number of
      milliseconds since the epoch, a [Z].  Invalid dates are not modelled.
    - Local time is UTC shifted by a fixed offset [tz], in minutes (no
      daylight-saving changes inside the modelled period).
    - [toISOString().split("T")[0]] is the UTC calendar day; since the
      text "YYYY-MM-DD" determines the day and conversely, it is modelled
      by the UTC day number.
    - Numbers are integers ([Z]); the only division whose quotient is not
      an integer, the one of [checkReminders], is done in [Q].
    - Text is a [string] of 8-bit characters.  Letter case, digits and
      white space are the ASCII ones; any other character is neither a
      letter, a digit nor a space. *)

From Stdlib Require Import ZArith List String Ascii Bool Lia QArith DecimalString.
From stdpp Require Import base list sorting.
Import ListNotations.

Local Open Scope string_scope.
Local Open Scope list_scope.
Local Open Scope Z_scope.

(** ** Data model *)

(** The task object, as built in [parseTaskFromNL] and [AddTaskModal] and
    as stored in the [tasks] table. *)
Record Task : Type := mkTask {
  id : string;
  title : string;
  description : string;
  startTime : Z;
  endTime : Z;
  completed : bool;
  completedAt : option Z;
  category : string;
  priority : string;
  color : string;
  reminder : bool;
  reminderSent : bool
}.

(** The [{ start, end }] objects pushed by [getFreeSlots], in minutes since
    midnight. *)
Record Slot : Type := mkSlot {
  start : Z;
  end_ : Z
}.

(** ** Interval conflict detector *)

(** [t.id !== excludeId], where [excludeId] defaults to [null]. *)
Definition notExcluded (excludeId : option string) (t : Task) : bool :=
  match excludeId with
  | None => true
  | Some e => negb (String.eqb (id t) e)
  end.

(** The callback of [.some]: [nStart < tEnd && nEnd > tStart]. *)
Definition overlaps (nStart nEnd : Z) (t : Task) : bool :=
  let tStart := startTime t in
  let tEnd := endTime t in
  (nStart <? tEnd) && (nEnd >? tStart).

Definition checkConflict (tasks : list Task) (newStart newEnd : Z)
    (excludeId : option string) : bool :=
  existsb (overlaps newStart newEnd)
          (List.filter (notExcluded excludeId) tasks).

(** ** Dates *)

Definition msPerMinute : Z := 60000.
Definition msPerHour : Z := 3600000.
Definition msPerDay : Z := 86400000.

(** [toISOString().split("T")[0]]: the UTC calendar day of an instant. *)
Definition isoDate (d : Z) : Z := d / msPerDay.

Section LocalTime.

(** Offset of local time from UTC, in minutes. *)
Variable tz : Z.

Definition localTime (d : Z) : Z := d + tz * msPerMinute.

Definition getHours (d : Z) : Z := (localTime d mod msPerDay) / msPerHour.

Definition getMinutes (d : Z) : Z := (localTime d mod msPerHour) / msPerMinute.

(** Number of the local calendar day, and the instant at which it begins. *)
Definition localDay (d : Z) : Z := localTime d / msPerDay.

Definition localMidnight (d : Z) : Z :=
  localDay d * msPerDay - tz * msPerMinute.

(** [d.setDate(d.getDate() + n)]: same local time of day, [n] days later. *)
Definition addDays (d n : Z) : Z := d + n * msPerDay.

(** [d.setHours(h, m, 0, 0)]: the local day of [d] at [h:m]; hours above 23
    run into the following days, as in JavaScript. *)
Definition setHours (d h m : Z) : Z :=
  localMidnight d + h * msPerHour + m * msPerMinute.

Definition minutesSinceMidnight (date : Z) : Z :=
  getHours date * 60 + getMinutes date.

(** ** Free-slot calculator *)

(** [.sort((a, b) => a.startTime - b.startTime)]: [Array.prototype.sort]
    is stable, so its result is the one of a stable insertion sort. *)
Fixpoint insertByStart (t : Task) (l : list Task) : list Task :=
  match l with
  | [] => [t]
  | u :: r =>
      if startTime t <=? startTime u then t :: l
      else u :: insertByStart t r
  end.

Definition sortByStart (l : list Task) : list Task :=
  fold_right insertByStart [] l.

(** The [for (const t of dayTasks)] loop: the slots pushed while the
    cursor sweeps the tasks, and the cursor after the last task. *)
Fixpoint sweep (dayTasks : list Task) (cursor : Z) : list Slot * Z :=
  match dayTasks with
  | [] => ([], cursor)
  | t :: rest =>
      let tStart := minutesSinceMidnight (startTime t) in
      let tEnd := minutesSinceMidnight (endTime t) in
      let pushed :=
        if tStart >? cursor then [mkSlot cursor tStart] else [] in
      let '(free, last) := sweep rest (Z.max cursor tEnd) in
      (pushed ++ free, last)
  end.

Definition getFreeSlots (tasks : list Task) (dateStr : Z)
    (dayStart dayEnd : Z) : list Slot :=
  let dayTasks :=
    sortByStart
      (List.filter (fun t => isoDate (startTime t) =? dateStr) tasks) in
  let '(free, cursor) := sweep dayTasks (dayStart * 60) in
  if cursor <? dayEnd * 60
  then free ++ [mkSlot cursor (dayEnd * 60)]
  else free.

End LocalTime.

(** ** Reminder scheduler *)

(** [{ ...task, reminderSent: true }] *)
Definition markSent (task : Task) : Task :=
  mkTask (id task) (title task) (description task) (startTime task)
         (endTime task) (completed task) (completedAt task) (category task)
         (priority task) (color task) (reminder task) true.

(** [minsUntil > 0 && minsUntil <= 15] with [minsUntil = msUntil / 60000],
    a division of numbers and not of integers.  The quotient is taken
    exactly; on the rounded quotient of JavaScript the two comparisons give
    the same answers. *)
Definition dueSoon (now : Z) (task : Task) : bool :=
  let msUntil := startTime task - now in
  let minsUntil := (inject_Z msUntil / inject_Z 60000)%Q in
  negb (Qle_bool minsUntil 0) && Qle_bool minsUntil 15.

(** The callback of [tasks.map]: the task put in [updated], and the tasks
    handed to [sendNotification] on the way (none or one). *)
Definition remind (now : Z) (task : Task) : Task * list Task :=
  if completed task || reminderSent task || negb (reminder task)
  then (task, [])
  else if dueSoon now task then (markSent task, [task])
  else (task, []).

(** One poll.  [now] is the value of [new Date()]; the result is the
    collection passed to [setTasks] and the calls made to
    [sendNotification], in order.  What the browser shows for a call, which
    [sendNotification] makes depend on the permission it was given, is
    outside the model. *)
Definition checkReminders (now : Z) (tasks : list Task)
    : list Task * list Task :=
  (List.map (fun task => fst (remind now task)) tasks,
   List.concat (List.map (fun task => snd (remind now task)) tasks)).

(** Repeated polls: each poll runs on the collection the previous one
    passed to [setTasks]; the result is the final collection and the
    notifications of each poll. *)
Fixpoint polls (nows : list Z) (tasks : list Task)
    : list Task * list (list Task) :=
  match nows with
  | [] => (tasks, [])
  | now :: later =>
      let '(updated, sent) := checkReminders now tasks in
      let '(final, sents) := polls later updated in
      (final, sent :: sents)
  end.

(** ** Text *)

Definition isDigit (c : ascii) : bool :=
  let n := nat_of_ascii c in (48 <=? n)%nat && (n <=? 57)%nat.

(** [\s], and the characters removed by [trim]: tab, line feed, vertical
    tab, form feed, carriage return, space. *)
Definition isSpace (c : ascii) : bool :=
  let n := nat_of_ascii c in
  ((9 <=? n)%nat && (n <=? 13)%nat) || (n =? 32)%nat.

Definition lowerChar (c : ascii) : ascii :=
  let n := nat_of_ascii c in
  if (65 <=? n)%nat && (n <=? 90)%nat then ascii_of_nat (n + 32) else c.

Definition upperChar (c : ascii) : ascii :=
  let n := nat_of_ascii c in
  if (97 <=? n)%nat && (n <=? 122)%nat then ascii_of_nat (n - 32) else c.

Fixpoint toLowerCase (s : string) : string :=
  match s with
  | EmptyString => EmptyString
  | String c r => String (lowerChar c) (toLowerCase r)
  end.

(** [parseInt] of a run of decimal digits. *)
Definition digitValue (c : ascii) : Z := Z.of_nat (nat_of_ascii c) - 48.

Fixpoint parseIntFrom (acc : Z) (s : string) : Z :=
  match s with
  | EmptyString => acc
  | String c r => parseIntFrom (acc * 10 + digitValue c) r
  end.

Definition parseInt (s : string) : Z := parseIntFrom 0 s.

(** [String.prototype.trim]. *)
Fixpoint trimStart (s : string) : string :=
  match s with
  | String c r => if isSpace c then trimStart r else s
  | EmptyString => EmptyString
  end.

Fixpoint trimEnd (s : string) : string :=
  match s with
  | EmptyString => EmptyString
  | String c r =>
      match trimEnd r with
      | EmptyString => if isSpace c then EmptyString else String c EmptyString
      | r' => String c r'
      end
  end.

Definition trim (s : string) : string := trimEnd (trimStart s).

(** *** Pieces of regular expressions

    Each function matches one piece at the head of the text and returns
    what is left after it.  All quantifiers of the expressions of
    [parseTaskFromNL] are greedy, and in each of them whatever follows a
    quantified piece either matches the empty text or cannot start with a
    character the piece could give back; so the first, greedy, attempt is
    the one a backtracking matcher ends on. *)

(** A literal, case-sensitive. *)
Fixpoint lit (p s : string) : option string :=
  match p, s with
  | EmptyString, _ => Some s
  | String a p', String c r => if Ascii.eqb a c then lit p' r else None
  | String _ _, EmptyString => None
  end.

(** A literal written in lower case, under the [i] flag. *)
Fixpoint litCI (p s : string) : option string :=
  match p, s with
  | EmptyString, _ => Some s
  | String a p', String c r =>
      if Ascii.eqb a (lowerChar c) then litCI p' r else None
  | String _ _, EmptyString => None
  end.

(** [p1|p2|...]: the first alternative that matches; the text matched and
    the rest. *)
Fixpoint alt (ps : list string) (s : string) : option (string * string) :=
  match ps with
  | [] => None
  | p :: ps' =>
      match lit p s with
      | Some r => Some (substring 0 (String.length p) s, r)
      | None => alt ps' s
      end
  end.

Fixpoint altCI (ps : list string) (s : string) : option (string * string) :=
  match ps with
  | [] => None
  | p :: ps' =>
      match litCI p s with
      | Some r => Some (substring 0 (String.length p) s, r)
      | None => altCI ps' s
      end
  end.

(** [\d{0,n}] and [\d*]: the digits taken and the rest. *)
Fixpoint digitsUpTo (n : nat) (s : string) : string * string :=
  match n, s with
  | S k, String c r =>
      if isDigit c
      then let '(ds, rest) := digitsUpTo k r in (String c ds, rest)
      else (EmptyString, s)
  | _, _ => (EmptyString, s)
  end.

Fixpoint digits (s : string) : string * string :=
  match s with
  | String c r =>
      if isDigit c
      then let '(ds, rest) := digits r in (String c ds, rest)
      else (EmptyString, s)
  | EmptyString => (EmptyString, s)
  end.

(** [\s*] *)
Fixpoint skipSpaces (s : string) : string :=
  match s with
  | String c r => if isSpace c then skipSpaces r else s
  | EmptyString => EmptyString
  end.

(** [(?::(\d{2}))?]: the two digits when a colon and two digits follow. *)
Definition colonMinutes (s : string) : option string * string :=
  match s with
  | String ":" r =>
      let '(ds, rest) := digitsUpTo 2 r in
      if (String.length ds =? 2)%nat then (Some ds, rest) else (None, s)
  | _ => (None, s)
  end.

(** [(am|pm)?] under the [i] flag. *)
Definition optAmPm (s : string) : option string * string :=
  match altCI ["am"; "pm"] s with
  | Some (m, rest) => (Some m, rest)
  | None => (None, s)
  end.

(** *** Searching and replacing

    A matcher [matchAt] tries an expression at the head of a text and
    returns the captures and the text left after the match.  None of the
    expressions below matches the empty text. *)

Section Regex.

Context {A : Type} (matchAt : string -> option (A * string)).

(** Characters of the match that starts at the head of [s], after the
    first one. *)
Definition matchTail (s rest : string) : nat :=
  (String.length s - String.length rest - 1)%nat.

(** The [while ((m = re.exec(s)) !== null)] loop of a [g] expression:
    all matches from left to right, each search starting where the
    previous match ended.  [skip] counts the characters of the current
    match still to be passed. *)
Fixpoint execAllFrom (skip : nat) (s : string) : list A :=
  match s with
  | EmptyString => []
  | String _ r =>
      match skip with
      | S k => execAllFrom k r
      | O =>
          match matchAt s with
          | Some (a, rest) => a :: execAllFrom (matchTail s rest) r
          | None => execAllFrom 0 r
          end
      end
  end.

Definition execAll (s : string) : list A := execAllFrom 0 s.

(** [s.replace(re, "")] for a [g] expression. *)
Fixpoint removeAllFrom (skip : nat) (s : string) : string :=
  match s with
  | EmptyString => EmptyString
  | String c r =>
      match skip with
      | S k => removeAllFrom k r
      | O =>
          match matchAt s with
          | Some (_, rest) => removeAllFrom (matchTail s rest) r
          | None => String c (removeAllFrom 0 r)
          end
      end
  end.

Definition removeAll (s : string) : string := removeAllFrom 0 s.

(** [s.match(re)] and [re.test(s)] without the [g] flag: the leftmost
    match. *)
Fixpoint search (s : string) : option A :=
  match matchAt s with
  | Some (a, _) => Some a
  | None =>
      match s with
      | EmptyString => None
      | String _ r => search r
      end
  end.

Definition test (s : string) : bool :=
  match search s with Some _ => true | None => false end.

End Regex.

(** [s.includes(p)] *)
Definition includes (s p : string) : bool :=
  test (fun x => option_map (fun r => (tt, r)) (lit p x)) s.

(** ** Intent resolver *)

Record TimeOfDay : Type := mkTime {
  hour : Z;
  min : Z
}.

(** The result objects of [parseTaskFromNL]: [{ success, message }],
    [{ success, conflict, message }] and [{ success, task, message }];
    a property an object does not have is [None]. *)
Record IntentResult : Type := mkResult {
  success : bool;
  conflict : option bool;
  task : option Task;
  message : string
}.

(** [/(\d{1,2})(?::(\d{2}))?\s*(am|pm)?/gi] at the head of a text: the
    groups [m[1]], [m[2]], [m[3]]. *)
Definition timeAt (s : string)
    : option ((string * option string * option string) * string) :=
  let '(m1, r1) := digitsUpTo 2 s in
  match m1 with
  | EmptyString => None
  | String _ _ =>
      let '(m2, r2) := colonMinutes r1 in
      let '(m3, r3) := optAmPm (skipSpaces r2) in
      Some ((m1, m2, m3), r3)
  end.

(** [ampm === "pm"], where [ampm] may be [undefined]. *)
Definition isText (o : option string) (p : string) : bool :=
  match o with
  | Some x => String.eqb x p
  | None => false
  end.

(** The body of the [while] loop over the time matches. *)
Definition toTime (m : string * option string * option string) : TimeOfDay :=
  let '(m1, m2, ampm) := m in
  let hour := parseInt m1 in
  let min := parseInt (match m2 with Some x => x | None => "0" end) in
  let hour := if isText ampm "pm" && negb (hour =? 12) then hour + 12 else hour in
  let hour := if isText ampm "am" && (hour =? 12) then 0 else hour in
  mkTime hour min.

Definition scanTimes (lower : string) : list TimeOfDay :=
  List.map toTime (execAll timeAt lower).

(** [/(\d+)\s*(hour|hr|minute|min)/] at the head of a text. *)
Definition durationAt (s : string) : option ((string * string) * string) :=
  let '(n, r1) := digits s in
  match n with
  | EmptyString => None
  | String _ _ =>
      match alt ["hour"; "hr"; "minute"; "min"] (skipSpaces r1) with
      | Some (unit, rest) => Some ((n, unit), rest)
      | None => None
      end
  end.

Definition startsWith (s p : string) : bool :=
  match lit p s with Some _ => true | None => false end.

Definition scanDuration (lower : string) : Z :=
  match search durationAt lower with
  | Some (n, unit) =>
      if startsWith unit "h" then parseInt n * 60 else parseInt n
  | None => 60
  end.

(** The four expressions removed from the message to get the title. *)
Definition commandWordAt (s : string) : option (string * string) :=
  altCI ["schedule"; "add"; "create"; "set up"; "book"; "remind me to"] s.

Definition dateWordAt (s : string) : option (string * string) :=
  altCI ["tomorrow"; "today"; "next week"] s.

(** [/at \d{1,2}(?::\d{2})?\s*(?:am|pm)?/gi] *)
Definition atTimeAt (s : string)
    : option ((string * option string * option string) * string) :=
  match litCI "at " s with
  | Some r => timeAt r
  | None => None
  end.

(** [/for \d+ (?:hour|hr|minute|min)s?/gi] *)
Definition forDurationAt (s : string) : option (unit * string) :=
  match litCI "for " s with
  | None => None
  | Some r0 =>
      let '(n, r1) := digits r0 in
      match n, lit " " r1 with
      | String _ _, Some r2 =>
          match altCI ["hour"; "hr"; "minute"; "min"] r2 with
          | Some (_, r3) =>
              match litCI "s" r3 with
              | Some r4 => Some (tt, r4)
              | None => Some (tt, r3)
              end
          | None => None
          end
      | _, _ => None
      end
  end.

Definition extractTitle (message : string) : string :=
  let title :=
    trim (removeAll forDurationAt
           (removeAll atTimeAt
             (removeAll dateWordAt
               (removeAll commandWordAt message)))) in
  let title :=
    match title with EmptyString => "New Task" | String _ _ => title end in
  match title with
  | String c r => String (upperChar c) r
  | EmptyString => EmptyString
  end.

(** Category detection: three [if] statements in a row, each assigning
    [category] when its expression matches the title. *)
Definition workWords : list string :=
  ["meeting"; "call"; "standup"; "sync"; "review"; "client"].
Definition healthWords : list string :=
  ["gym"; "exercise"; "workout"; "run"; "yoga"; "health"; "doctor"].
Definition personalWords : list string :=
  ["lunch"; "dinner"; "breakfast"; "coffee"; "birthday"; "party"].

Definition detectCategory (title : string) : string :=
  let category := "general" in
  let category := if test (altCI workWords) title then "work" else category in
  let category := if test (altCI healthWords) title then "health" else category in
  let category := if test (altCI personalWords) title then "personal" else category in
  category.

(** [colors[category]]; a key the table lacks gives [undefined], which
    cannot happen for the four categories above and is written [""]. *)
Definition colors (category : string) : string :=
  if String.eqb category "work" then "#4A90D9"
  else if String.eqb category "health" then "#5BB97B"
  else if String.eqb category "personal" then "#7C5CBF"
  else if String.eqb category "general" then "#94A3B8"
  else "".

(** [n.toString().padStart(2, "0")] for an integer [n]. *)
Definition numToString (n : Z) : string :=
  DecimalString.NilZero.string_of_int (Z.to_int n).

Definition padStart2 (s : string) : string :=
  match s with
  | EmptyString => "00"
  | String c EmptyString => String "0" (String c EmptyString)
  | _ => s
  end.

Definition minutesToTime (minutes : Z) : string :=
  let h := padStart2 (numToString (minutes / 60)) in
  let m := padStart2 (numToString (Z.rem minutes 60)) in
  (h ++ ":" ++ m)%string.

(** The slots offered when the requested time is taken:
    [freeSlots.filter(...).slice(0, 3)], and the text [.map] makes of each. *)
Definition alternatives (freeSlots : list Slot) (durationMins : Z)
    : list Slot :=
  firstn 3 (List.filter (fun s => end_ s - start s >=? durationMins) freeSlots).

Definition shownEnd (durationMins : Z) (s : Slot) : Z :=
  Z.min (end_ s) (start s + durationMins).

Definition showSlot (durationMins : Z) (s : Slot) : string :=
  (minutesToTime (start s) ++ " – "
   ++ minutesToTime (shownEnd durationMins s))%string.

Definition noTimeMessage : string :=
  "I couldn't detect a time. Try: 'Schedule a meeting tomorrow at 3 PM'".

Definition conflictMessage (suggestions : list string) : string :=
  ("⚠️ That time slot is already taken! Available slots: "
   ++ String.concat ", " suggestions)%string.

Definition quote : string := String (ascii_of_nat 34) EmptyString.

Section Resolver.

Variable tz : Z.

(** [formatTime], that is [toLocaleTimeString("en-US", ...)], and the
    [toLocaleDateString("en-US", ...)] of the confirmation: the texts
    are made by the platform. *)
Variable formatTime : Z -> string.
Variable formatDay : Z -> string.

Definition successMessage (title : string) (targetDate startTime endTime : Z)
    : string :=
  ("✅ Added " ++ quote ++ title ++ quote ++ " on " ++ formatDay targetDate
   ++ " from " ++ formatTime startTime ++ " to " ++ formatTime endTime)%string.

(** The "Date parsing" block: the day the words of the message point to. *)
Definition shiftDate (lower : string) (selectedDate : Z) : Z :=
  if includes lower "tomorrow" then addDays selectedDate 1
  else if includes lower "next week" then addDays selectedDate 7
  else selectedDate.

(** [newId] is the value of the call [generateId()]. *)
Definition parseTaskFromNL (newId : string) (message : string)
    (tasks : list Task) (selectedDate : Z) : IntentResult :=
  let lower := toLowerCase message in
  let times := scanTimes lower in
  let targetDate := shiftDate lower selectedDate in
  let durationMins := scanDuration lower in
  let title := extractTitle message in
  let category := detectCategory title in
  match times with
  | [] => mkResult false None None noTimeMessage
  | mkTime hour min :: _ =>
      let startTime := setHours tz targetDate hour min in
      let endTime := startTime + durationMins * 60000 in
      let dateStr := isoDate targetDate in
      let hasConflict := checkConflict tasks startTime endTime None in
      let freeSlots := getFreeSlots tz tasks dateStr 8 22 in
      if hasConflict then
        let suggestions :=
          List.map (showSlot durationMins)
                   (alternatives freeSlots durationMins) in
        mkResult false (Some true) None (conflictMessage suggestions)
      else
        let newTask :=
          mkTask newId title "Added via AI assistant" startTime endTime
                 false None category "medium" (colors category) true false in
        mkResult true None (Some newTask)
                 (successMessage title targetDate startTime endTime)
  end.

End Resolver.

(** ** Notifications *)

(** What [sendNotification] reads of the browser: whether [Notification]
    exists in [window], and [Notification.permission]. *)
Record Browser : Type := mkBrowser {
  hasNotification : bool;
  permission : string
}.

(** The object built by [new Notification(title, { body, icon, badge, tag })]. *)
Record Notification : Type := mkNotification {
  notifTitle : string;
  body : string;
  icon : string;
  badge : string;
  tag : string
}.

Section Notify.

(** [formatTime]: the text is made by the platform. *)
Variable formatTime : Z -> string.

(** The notifications created by one call: one, or none without the
    permission.  A task without description has the empty text there. *)
Definition sendNotification (browser : Browser) (task : Task)
    : list Notification :=
  if hasNotification browser && String.eqb (permission browser) "granted"
  then [mkNotification
          ("⏰ Starting in 15 min: " ++ title task)%string
          (formatTime (startTime task) ++ " – " ++ description task)%string
          "/favicon.ico" "/favicon.ico" (id task)]
  else [].

(** Polls as in [polls], each in the browser state of its time; the
    notifications created are collected. *)
Fixpoint pollsShown (ticks : list (Z * Browser)) (tasks : list Task)
    : list Task * list Notification :=
  match ticks with
  | [] => (tasks, [])
  | (now, browser) :: later =>
      let '(updated, sent) := checkReminders now tasks in
      let '(final, shown) := pollsShown later updated in
      (final, List.flat_map (sendNotification browser) sent ++ shown)
  end.

(** *** The reminder pass of the timer in [App] *)

(** A call [addToast(title, message, type)]. *)
Record ToastCall : Type := mkToastCall {
  toastTitle : string;
  toastMessage : string;
  toastType : string
}.

(** What the callback of [prev.map] does for one task: the task it
    returns, the task handed to [sendNotification], the call to
    [addToast], and whether it sets [changed]. *)
Record Ticked : Type := mkTicked {
  tickedTask : Task;
  tickedSent : list Task;
  tickedToasts : list ToastCall;
  tickedChanged : bool
}.

Definition tickTask (now : Z) (task : Task) : Ticked :=
  if completed task || reminderSent task || negb (reminder task)
  then mkTicked task [] [] false
  else if dueSoon now task
  then mkTicked (markSent task) [task]
         [mkToastCall "⏰ Starting Soon"
            (quote ++ title task ++ quote ++ " starts at "
             ++ formatTime (startTime task))%string
            "reminder"]
         true
  else mkTicked task [] [] false.

(** The updater passed to [setTasks] every 30 seconds: the new collection,
    the calls to [sendNotification] and the calls to [addToast]. *)
Definition reminderTick (now : Z) (prev : list Task)
    : list Task * list Task * list ToastCall :=
  let results := List.map (tickTask now) prev in
  let changed := existsb tickedChanged results in
  let updated := List.map tickedTask results in
  (if changed then updated else prev,
   List.concat (List.map tickedSent results),
   List.concat (List.map tickedToasts results)).

End Notify.

(** ** Collection updates of [App] *)

(** [handleDeleteTask]: [prev.filter((t) => t.id !== taskId)]. *)
Definition deleteTask (taskId : string) (prev : list Task) : list Task :=
  List.filter (fun t => negb (String.eqb (id t) taskId)) prev.

(** [handleAddTask]: [[...prev, row]], [row] being the row the store
    returned for the inserted task. *)
Definition appendTask (prev : list Task) (row : Task) : list Task :=
  prev ++ [row].

(** ** The form of [AddTaskModal] *)





Section AddTaskModal.

Variable tz : Z.


(** The [tasks] property of the modal. *)
Variable tasks : list Task.





End AddTaskModal.

(** ** Counts of [Analytics] *)

(** The keys of [CATEGORIES], in the order of [Object.entries]. *)
Definition categoryKeys : list string :=
  ["work"; "health"; "personal"; "general"].

(** [tasks.filter((t) => t.category === key).length] *)
Definition categoryCount (tasks : list Task) (key : string) : Z :=
  Z.of_nat (length (List.filter (fun t => String.eqb (category t) key) tasks)).

(** [catBreakdown], reduced to the key and the count of each entry, and
    [totalCats]. *)
Definition catBreakdown (tasks : list Task) : list (string * Z) :=
  List.filter (fun c => snd c >? 0)
    (List.map (fun key => (key, categoryCount tasks key)) categoryKeys).

Definition totalCats (tasks : list Task) : Z :=
  fold_left (fun s c => s + snd c) (catBreakdown tasks) 0.

(** [todayTasks], [total] and [completed]; [todayStr2] is the day of
    [new Date()]. *)
Definition todayTasks (todayStr2 : Z) (tasks : list Task) : list Task :=
  List.filter (fun t => isoDate (startTime t) =? todayStr2) tasks.

Definition totalToday (todayStr2 : Z) (tasks : list Task) : Z :=
  Z.of_nat (length (todayTasks todayStr2 tasks)).

Definition completedToday (todayStr2 : Z) (tasks : list Task) : Z :=
  Z.of_nat (length (List.filter completed (todayTasks todayStr2 tasks))).

(** ** Sample data

    Instants of the first day of the epoch, read in UTC. *)

Definition at_ (h m : Z) : Z := h * msPerHour + m * msPerMinute.

Definition sampleTask (i : string) (from to : Z) : Task :=
  mkTask i "Task" "" from to false None "general" "medium" "#94A3B8" true false.

Definition nineToTen : Task := sampleTask "t1" (at_ 9 0) (at_ 10 0).
Definition elevenToNoon : Task := sampleTask "t2" (at_ 11 0) (at_ 12 0).
Definition lateEvening : Task := sampleTask "t3" (at_ 23 0) (at_ 23 30).

(** ** Vocabulary of the statements *)

(** The text contains a decimal digit. *)
Fixpoint hasDigit (s : string) : bool :=
  match s with
  | EmptyString => false
  | String c r => isDigit c || hasDigit r
  end.

(** Minute [x] of the day lies in the slot; in the interval of the task. *)
Definition inSlot (x : Z) (s : Slot) : Prop := start s <= x < end_ s.

Definition startMinute (tz : Z) (t : Task) : Z :=
  minutesSinceMidnight tz (startTime t).

Definition endMinute (tz : Z) (t : Task) : Z :=
  minutesSinceMidnight tz (endTime t).

Definition busyAt (tz : Z) (x : Z) (t : Task) : Prop :=
  startMinute tz t <= x < endMinute tz t.

(** Minutes from the poll to the start of the task. *)
Definition minsUntil (now : Z) (t : Task) : Q :=
  (inject_Z (startTime t - now) / inject_Z 60000)%Q.

(** The condition under which the scheduler is to fire for a task. *)
Definition Due (now : Z) (t : Task) : Prop :=
  reminder t = true /\ completed t = false /\ reminderSent t = false /\
  (0 < minsUntil now t)%Q /\ (minsUntil now t <= 15)%Q.

(** What one poll does with a task, as a Boolean. *)
Definition fires (now : Z) (t : Task) : bool :=
  negb (completed t || reminderSent t || negb (reminder t)) && dueSoon now t.

(** Category inference as the specification words it: the sets are tried
    work, health, personal and the first that matches wins. *)
Definition firstMatchCategory (title : string) : string :=
  if test (altCI workWords) title then "work"
  else if test (altCI healthWords) title then "health"
  else if test (altCI personalWords) title then "personal"
  else "general".

(** The text consists of decimal digits. *)
Fixpoint allDigits (s : string) : bool :=
  match s with
  | EmptyString => true
  | String c r => isDigit c && allDigits r
  end.

(** The character is a lower-case letter. *)
Definition isLower (c : ascii) : bool :=
  let n := nat_of_ascii c in (97 <=? n)%nat && (n <=? 122)%nat.

(** The number written by the first run of digits of a text. *)
Fixpoint firstNumber (s : string) : option Z :=
  match s with
  | EmptyString => None
  | String c r =>
      if isDigit c then Some (parseInt (fst (digits s))) else firstNumber r
  end.

(** The utterances of the examples. *)
Definition teamSync : string := "Schedule team sync tomorrow at 2 PM for 1 hour".
Definition minuteReview : string := "Schedule 30 minute review".
Definition longReview : string := "Schedule 120 minute review".

(** ** Properties of the conflict detector *)

Lemma notExcluded_spec (ex : option string) (t : Task) :
  notExcluded ex t = true <-> Some (id t) <> ex.
Proof.
  destruct ex as [e|]; simpl.
  - rewrite negb_true_iff. split.
    + intros H [= Heq]. apply String.eqb_neq in H. contradiction.
    + intros H. apply String.eqb_neq. intros Heq. apply H. now f_equal.
  - split; [discriminate | reflexivity].
Qed.

Lemma overlaps_spec (ns ne : Z) (t : Task) :
  overlaps ns ne t = true <-> ns < endTime t /\ ne > startTime t.
Proof.
  unfold overlaps. rewrite andb_true_iff, Z.ltb_lt, Z.gtb_gt. reflexivity.
Qed.

Lemma checkConflict_app (l1 l2 : list Task) (ns ne : Z) (ex : option string) :
  checkConflict (l1 ++ l2) ns ne ex
  = checkConflict l1 ns ne ex || checkConflict l2 ns ne ex.
Proof.
  unfold checkConflict. now rewrite List.filter_app, existsb_app.
Qed.

(** C3.  The detector answers [true] exactly when some task whose id
    differs from the exclusion id satisfies
    [candidateStart < taskEnd] and [candidateEnd > taskStart]; a candidate
    that ends where a task starts, or starts where a task ends, does not
    conflict with it. *)
Theorem checkConflict_iff_overlap :
  forall (tasks : list Task) (ns ne : Z) (ex : option string),
    (checkConflict tasks ns ne ex = true <->
     exists t, In t tasks /\ Some (id t) <> ex /\
               ns < endTime t /\ ne > startTime t)
    /\ (forall t, overlaps ns (startTime t) t = false
                  /\ checkConflict [t] ns (startTime t) ex = false)
    /\ (forall t, overlaps (endTime t) ne t = false
                  /\ checkConflict [t] (endTime t) ne ex = false).
Proof.
  intros tasks ns ne ex. split; [|split].
  - unfold checkConflict. rewrite existsb_exists. split.
    + intros (t & Hin & Hov). apply List.filter_In in Hin as [Hin Hex].
      exists t. split; [assumption|]. split.
      * now apply notExcluded_spec.
      * now apply overlaps_spec.
    + intros (t & Hin & Hex & Hov). exists t. split.
      * apply List.filter_In. split; [assumption|]. now apply notExcluded_spec.
      * now apply overlaps_spec.
  - intros t.
    assert (Hov : overlaps ns (startTime t) t = false).
    { unfold overlaps. rewrite andb_false_iff. right. rewrite Z.gtb_ltb. apply Z.ltb_irrefl. }
    split; [assumption|].
    unfold checkConflict. simpl. destruct (notExcluded ex t); simpl; [|reflexivity].
    now rewrite Hov.
  - intros t.
    assert (Hov : overlaps (endTime t) ne t = false).
    { unfold overlaps. now rewrite Z.ltb_irrefl. }
    split; [assumption|].
    unfold checkConflict. simpl. destruct (notExcluded ex t); simpl; [|reflexivity].
    now rewrite Hov.
Qed.

(** C9.  The overlap test is symmetric in the two intervals, and a task
    passed with its own id as exclusion id never counts against itself:
    alone it gives [false], and inside any collection the answer is the one
    of the collection without it. *)
Theorem checkConflict_symmetric_self_excluded :
  (forall a b : Task,
      checkConflict [b] (startTime a) (endTime a) None
      = checkConflict [a] (startTime b) (endTime b) None)
  /\ (forall t : Task,
      checkConflict [t] (startTime t) (endTime t) (Some (id t)) = false)
  /\ (forall (before after : list Task) (t : Task) (ns ne : Z),
      checkConflict (before ++ t :: after) ns ne (Some (id t))
      = checkConflict (before ++ after) ns ne (Some (id t))).
Proof.
  split; [|split].
  - intros a b. unfold checkConflict, overlaps. simpl.
    rewrite !orb_false_r, !Z.gtb_ltb. apply andb_comm.
  - intros t. unfold checkConflict. simpl. now rewrite String.eqb_refl.
  - intros before after t ns ne.
    rewrite !checkConflict_app.
    change (t :: after) with ([t] ++ after). rewrite checkConflict_app.
    replace (checkConflict [t] ns ne (Some (id t))) with false; [reflexivity|].
    unfold checkConflict. simpl. now rewrite String.eqb_refl.
Qed.

(** ** Properties of the reminder scheduler *)

Lemma dueSoon_spec (now : Z) (t : Task) :
  dueSoon now t = true <-> (0 < minsUntil now t)%Q /\ (minsUntil now t <= 15)%Q.
Proof.
  unfold dueSoon. fold (minsUntil now t).
  rewrite andb_true_iff, negb_true_iff, Qle_bool_iff.
  split; intros [H1 H2]; (split; [|exact H2]).
  - apply Qnot_le_lt. intros Hle. apply Qle_bool_iff in Hle. congruence.
  - destruct (Qle_bool (minsUntil now t) 0) eqn:E; [|reflexivity].
    apply Qle_bool_iff in E. exfalso. exact (Qlt_not_le _ _ H1 E).
Qed.

Lemma fires_spec (now : Z) (t : Task) : fires now t = true <-> Due now t.
Proof.
  unfold fires, Due. rewrite andb_true_iff, dueSoon_spec.
  destruct (completed t), (reminderSent t), (reminder t); simpl; intuition congruence.
Qed.

Lemma remind_fires (now : Z) (t : Task) :
  remind now t = if fires now t then (markSent t, [t]) else (t, []).
Proof.
  unfold remind, fires.
  destruct (completed t || reminderSent t || negb (reminder t)); simpl; [reflexivity|].
  destruct (dueSoon now t); reflexivity.
Qed.

Lemma checkReminders_updated (now : Z) (tasks : list Task) :
  fst (checkReminders now tasks)
  = List.map (fun t => if fires now t then markSent t else t) tasks.
Proof.
  unfold checkReminders. simpl. apply List.map_ext. intros t.
  rewrite remind_fires. now destruct (fires now t).
Qed.

Lemma checkReminders_sent (now : Z) (tasks : list Task) :
  snd (checkReminders now tasks) = List.filter (fires now) tasks.
Proof.
  unfold checkReminders. simpl. induction tasks as [|t l IH]; [reflexivity|].
  simpl. rewrite IH, remind_fires. now destruct (fires now t).
Qed.

Lemma lookup_map {A B : Type} (f : A -> B) (l : list A) (i : nat) :
  List.map f l !! i = f <$> (l !! i).
Proof.
  revert i. induction l as [|x l IH]; intros [|i]; simpl; try reflexivity. apply IH.
Qed.

Lemma fires_markSent (now now' : Z) (t : Task) : fires now' (markSent t) = false.
Proof. unfold fires. simpl. now rewrite orb_true_r. Qed.

(** A task still unsent after a poll is a task of the collection the poll
    started from, and the poll did not fire for it. *)
Lemma unsent_after_poll (now : Z) (tasks : list Task) (u : Task) :
  In u (fst (checkReminders now tasks)) -> reminderSent u = false ->
  In u tasks /\ fires now u = false.
Proof.
  rewrite checkReminders_updated, in_map_iff. intros (t & Hu & Hin) Hs.
  destruct (fires now t) eqn:E; subst u; [discriminate|]. now split.
Qed.

Lemma polls_cons (now : Z) (later : list Z) (tasks : list Task) :
  polls (now :: later) tasks
  = (fst (polls later (fst (checkReminders now tasks))),
     snd (checkReminders now tasks)
       :: snd (polls later (fst (checkReminders now tasks)))).
Proof.
  cbn [polls]. destruct (checkReminders now tasks) as [updated sent].
  cbn [fst snd]. now destruct (polls later updated).
Qed.

(** Every notification of a run of polls is for a task of the initial
    collection that was unsent there. *)
Lemma polls_sent_from (nows : list Z) (tasks : list Task) (u : Task) :
  In u (List.concat (snd (polls nows tasks))) ->
  In u tasks /\ reminderSent u = false.
Proof.
  revert tasks. induction nows as [|now later IH]; intros tasks; [intros []|].
  rewrite polls_cons. cbn [fst snd List.concat]. rewrite in_app_iff. intros [H|H].
  - rewrite checkReminders_sent in H. apply List.filter_In in H as [Hin Hf].
    split; [assumption|]. apply fires_spec in Hf. apply Hf.
  - apply IH in H as [Hin Hs]. split; [|assumption].
    now apply (unsent_after_poll now).
Qed.

Lemma checkReminders_ids (now : Z) (tasks : list Task) :
  List.map id (fst (checkReminders now tasks)) = List.map id tasks.
Proof.
  rewrite checkReminders_updated, List.map_map. apply List.map_ext.
  intros t. now destruct (fires now t).
Qed.

Lemma NoDup_ids_inj (l : list Task) (u v : Task) :
  List.NoDup (List.map id l) -> In u l -> In v l -> id u = id v -> u = v.
Proof.
  induction l as [|x l IH]; simpl; [intros _ []|].
  intros Hnd Hu Hv Hid. apply List.NoDup_cons_iff in Hnd as [Hx Hnd].
  destruct Hu as [->|Hu], Hv as [->|Hv]; auto.
  - exfalso. apply Hx. rewrite Hid. now apply List.in_map.
  - exfalso. apply Hx. rewrite <- Hid. now apply List.in_map.
Qed.

Lemma NoDup_ids_filter (f : Task -> bool) (l : list Task) :
  List.NoDup (List.map id l) -> List.NoDup (List.map id (List.filter f l)).
Proof.
  induction l as [|x l IH]; simpl; [trivial|].
  intros Hnd. apply List.NoDup_cons_iff in Hnd as [Hx Hnd].
  destruct (f x); simpl; [|auto].
  constructor; [|auto]. intros Hin. apply Hx.
  apply in_map_iff in Hin as (y & Hy & Hin). apply List.filter_In in Hin as [Hin _].
  rewrite <- Hy. now apply List.in_map.
Qed.

Lemma polls_fire_once (nows : list Z) (tasks : list Task) :
  List.NoDup (List.map id tasks) ->
  List.NoDup (List.map id (List.concat (snd (polls nows tasks)))).
Proof.
  revert tasks. induction nows as [|now later IH]; intros tasks Hnd; [constructor|].
  rewrite polls_cons. cbn [fst snd List.concat]. rewrite List.map_app.
  apply List.NoDup_app; repeat split.
  - rewrite checkReminders_sent. now apply NoDup_ids_filter.
  - apply IH. now rewrite checkReminders_ids.
  - intros x Hu Hv.
    apply in_map_iff in Hu as (u & Hux & Hu).
    apply in_map_iff in Hv as (v & Hvx & Hv).
    rewrite checkReminders_sent in Hu. apply List.filter_In in Hu as [Hu Hfu].
    apply polls_sent_from in Hv as [Hv Hs].
    apply unsent_after_poll in Hv as [Hv Hfv]; [|assumption].
    assert (u = v) by (apply (NoDup_ids_inj tasks); congruence).
    congruence.
Qed.

Lemma polls_keep_sent (nows : list Z) (tasks : list Task) (i : nat) (t : Task) :
  tasks !! i = Some t -> reminderSent t = true ->
  fst (polls nows tasks) !! i = Some t.
Proof.
  revert tasks. induction nows as [|now later IH]; intros tasks Hi Hs; [exact Hi|].
  rewrite polls_cons. cbn [fst snd List.concat]. apply IH; [|assumption].
  rewrite checkReminders_updated, lookup_map, Hi. simpl.
  unfold fires. rewrite Hs. simpl. now rewrite orb_true_r.
Qed.

(** C2.  In one poll a notification is delivered for a task, and its
    [reminderSent] goes from [false] to [true], exactly when the task has
    [reminder], is neither completed nor already notified, and starts in
    more than 0 and at most 15 minutes.  Over repeated polls no task is
    notified twice: after the poll that fires for a task no later poll
    fires for it, and with distinct ids no id is notified twice.  A task
    whose [reminderSent] is [true] keeps it. *)
Theorem checkReminders_fires_iff_due :
  forall (now : Z) (tasks : list Task),
    (forall t, In t (snd (checkReminders now tasks)) <-> In t tasks /\ Due now t)
    /\ (forall (i : nat) (t : Task), tasks !! i = Some t ->
          exists t', fst (checkReminders now tasks) !! i = Some t' /\
            ((reminderSent t = false /\ reminderSent t' = true) <-> Due now t))
    /\ (forall (nows : list Z) (now' : Z) (i : nat) (t : Task),
          tasks !! i = Some t -> Due now t ->
          exists t', fst (polls (now :: nows) tasks) !! i = Some t' /\
                     remind now' t' = (t', []) /\ ~ Due now' t')
    /\ (forall nows : list Z,
          List.NoDup (List.map id tasks) ->
          List.NoDup (List.map id (List.concat (snd (polls (now :: nows) tasks)))))
    /\ (forall (nows : list Z) (i : nat) (t : Task),
          tasks !! i = Some t -> reminderSent t = true ->
          exists t', fst (polls (now :: nows) tasks) !! i = Some t' /\
                     reminderSent t' = true).
Proof.
  intros now tasks. split; [|split; [|split; [|split]]].
  - intros t. rewrite checkReminders_sent, List.filter_In, fires_spec.
    reflexivity.
  - intros i t Hi. rewrite checkReminders_updated, lookup_map, Hi. simpl.
    destruct (fires now t) eqn:E.
    + exists (markSent t). split; [reflexivity|]. apply fires_spec in E.
      split; [intros _; exact E|]. intros _. split; [apply E | reflexivity].
    + exists t. split; [reflexivity|]. split.
      * intros [H1 H2]. congruence.
      * intros Hd. apply fires_spec in Hd. congruence.
  - intros nows now' i t Hi Hd. exists (markSent t).
    assert (Hf : fires now' (markSent t) = false) by apply (fires_markSent now).
    split; [|split; [now rewrite remind_fires, Hf|]].
    + rewrite polls_cons. cbn [fst]. apply polls_keep_sent; [|reflexivity].
      rewrite checkReminders_updated, lookup_map, Hi. simpl.
      now rewrite (proj2 (fires_spec now t) Hd).
    + intros Hd'. apply fires_spec in Hd'. congruence.
  - intros nows Hnd. now apply polls_fire_once.
  - intros nows i t Hi Hs. exists t. split; [|assumption].
    now apply polls_keep_sent.
Qed.

Lemma checkReminders_fires_iff_due_witness :
  exists t', fst (checkReminders (at_ 8 50) [nineToTen; elevenToNoon]) !! 0%nat
             = Some t' /\
    ((reminderSent nineToTen = false /\ reminderSent t' = true)
     <-> Due (at_ 8 50) nineToTen).
Proof.
  apply (proj1 (proj2
          (checkReminders_fires_iff_due (at_ 8 50) [nineToTen; elevenToNoon]))
          0%nat nineToTen).
  reflexivity.
Defined.

(** C8.  A task that is outside the reminder window, or completed, or
    already notified, or has no reminder, is in the collection returned by
    the poll at the same place and with every field as it was. *)
Theorem checkReminders_frame :
  forall (now : Z) (tasks : list Task) (i : nat) (t : Task),
    tasks !! i = Some t ->
    (~ ((0 < minsUntil now t)%Q /\ (minsUntil now t <= 15)%Q)
     \/ completed t = true \/ reminderSent t = true \/ reminder t = false) ->
    fst (checkReminders now tasks) !! i = Some t.
Proof.
  intros now tasks i t Hi Hout.
  rewrite checkReminders_updated, lookup_map, Hi. simpl.
  destruct (fires now t) eqn:E; [|reflexivity].
  apply fires_spec in E. destruct E as (Hr & Hc & Hs & Hw).
  destruct Hout as [H|[H|[H|H]]]; [contradiction | congruence ..].
Qed.

Lemma checkReminders_frame_witness :
  fst (checkReminders (at_ 8 50) [nineToTen; markSent elevenToNoon]) !! 1%nat
  = Some (markSent elevenToNoon).
Proof.
  apply (checkReminders_frame (at_ 8 50) [nineToTen; markSent elevenToNoon]
           1%nat (markSent elevenToNoon)).
  - reflexivity.
  - right. right. left. reflexivity.
Defined.

(** ** Properties of the date model *)

Lemma localDay_addDays (tz d n : Z) : localDay tz (addDays d n) = localDay tz d + n.
Proof.
  unfold localDay, localTime, addDays.
  replace (d + n * msPerDay + tz * msPerMinute)
    with (d + tz * msPerMinute + n * msPerDay) by ring.
  apply Z.div_add. discriminate.
Qed.

Lemma localMidnight_addDays (tz d n : Z) :
  localMidnight tz (addDays d n) = localMidnight tz d + n * msPerDay.
Proof. unfold localMidnight. rewrite localDay_addDays. ring. Qed.

(** [setHours] with an hour and a minute of the clock gives an instant of
    the same local day whose clock shows them. *)
Lemma setHours_clock (tz d h m : Z) :
  0 <= h < 24 -> 0 <= m < 60 ->
  localDay tz (setHours tz d h m) = localDay tz d
  /\ getHours tz (setHours tz d h m) = h
  /\ getMinutes tz (setHours tz d h m) = m.
Proof.
  intros Hh Hm.
  assert (E : localTime tz (setHours tz d h m)
              = localDay tz d * msPerDay + (h * msPerHour + m * msPerMinute)).
  { unfold localTime, setHours, localMidnight. ring. }
  unfold getHours, getMinutes. unfold localDay at 1. rewrite E.
  unfold msPerDay, msPerHour, msPerMinute in *.
  repeat split.
  - symmetry. apply (Z.div_unique _ _ _ (h * 3600000 + m * 60000)); lia.
  - replace ((localDay tz d * 86400000 + (h * 3600000 + m * 60000)) mod 86400000)
      with (h * 3600000 + m * 60000).
    + symmetry. apply (Z.div_unique _ _ _ (m * 60000)); lia.
    + apply (Z.mod_unique _ _ (localDay tz d)); lia.
  - replace ((localDay tz d * 86400000 + (h * 3600000 + m * 60000)) mod 3600000)
      with (m * 60000).
    + symmetry. apply (Z.div_unique _ _ _ 0); lia.
    + apply (Z.mod_unique _ _ (localDay tz d * 24 + h)); lia.
Qed.

(** ** Properties of the intent resolver: category *)

(** C4, as stated, fails: the title "Review lunch" matches the work set and
    the personal set, and is categorized "personal", not "work". *)
Lemma detectCategory_review_lunch_not_work :
  test (altCI workWords) "Review lunch" = true
  /\ test (altCI personalWords) "Review lunch" = true
  /\ detectCategory "Review lunch" = "personal"
  /\ detectCategory "Review lunch" <> firstMatchCategory "Review lunch".
Proof. repeat split. vm_compute. discriminate. Qed.

(** C4, amended.  The three keyword sets are tested work, health, personal
    in that order and each match overwrites the category, so the last set
    that matches wins: personal before health before work, and "general"
    when none matches. *)
Theorem detectCategory_last_match_wins :
  forall title : string,
    detectCategory title
    = (if test (altCI personalWords) title then "personal"
       else if test (altCI healthWords) title then "health"
       else if test (altCI workWords) title then "work"
       else "general")
    /\ (test (altCI workWords) title = false ->
        test (altCI healthWords) title = false ->
        test (altCI personalWords) title = false ->
        detectCategory title = "general")
    /\ (test (altCI personalWords) title = false ->
        test (altCI healthWords) title = false ->
        detectCategory title = firstMatchCategory title).
Proof.
  intros title. unfold detectCategory, firstMatchCategory.
  destruct (test (altCI workWords) title),
           (test (altCI healthWords) title),
           (test (altCI personalWords) title);
    repeat split; intros; congruence.
Qed.

(** ** Properties of the intent resolver: time of day *)

Lemma isDigit_lowerChar (c : ascii) : isDigit (lowerChar c) = isDigit c.
Proof. destruct c as [[] [] [] [] [] [] [] []]; reflexivity. Qed.

Lemma hasDigit_toLowerCase (s : string) : hasDigit (toLowerCase s) = hasDigit s.
Proof.
  induction s as [|c r IH]; [reflexivity|]. simpl.
  now rewrite isDigit_lowerChar, IH.
Qed.

Lemma hasDigit_append (s1 s2 : string) :
  hasDigit (s1 ++ s2)%string = hasDigit s1 || hasDigit s2.
Proof.
  induction s1 as [|c r IH]; [reflexivity|]. simpl. now rewrite IH, orb_assoc.
Qed.

Lemma toLowerCase_append (s1 s2 : string) :
  toLowerCase (s1 ++ s2)%string = (toLowerCase s1 ++ toLowerCase s2)%string.
Proof. induction s1 as [|c r IH]; [reflexivity|]. simpl. now rewrite IH. Qed.

(** The time expression matches at a position exactly when a digit stands
    there: everything after the first digit is optional. *)
Lemma timeAt_digit (c : ascii) (r : string) :
  isDigit c = true -> exists m rest, timeAt (String c r) = Some (m, rest).
Proof.
  intros Hc. unfold timeAt.
  change (digitsUpTo 2 (String c r))
    with (if isDigit c
          then let '(ds, rest) := digitsUpTo 1 r in (String c ds, rest)
          else (EmptyString, String c r)).
  rewrite Hc. destruct (digitsUpTo 1 r) as [ds r1].
  destruct (colonMinutes r1) as [m2 r2].
  destruct (optAmPm (skipSpaces r2)) as [m3 r3]. eauto.
Qed.

Lemma timeAt_no_digit (c : ascii) (r : string) :
  isDigit c = false -> timeAt (String c r) = None.
Proof. intros Hc. unfold timeAt. cbn [digitsUpTo]. now rewrite Hc. Qed.

Lemma execAll_timeAt_nil (s : string) :
  execAll timeAt s = [] <-> hasDigit s = false.
Proof.
  unfold execAll. induction s as [|c r IH]; [easy|].
  cbn [execAllFrom hasDigit]. destruct (isDigit c) eqn:Hc.
  - destruct (timeAt_digit c r Hc) as (m & rest & ->). easy.
  - now rewrite timeAt_no_digit.
Qed.

Lemma scanTimes_nil (message : string) :
  scanTimes (toLowerCase message) = [] <-> hasDigit message = false.
Proof.
  unfold scanTimes. rewrite <- hasDigit_toLowerCase, <- execAll_timeAt_nil.
  destruct (execAll timeAt (toLowerCase message)); easy.
Qed.

Lemma execAll_timeAt_prefix (pre suf : string) :
  hasDigit pre = false ->
  execAll timeAt (pre ++ suf)%string = execAll timeAt suf.
Proof.
  unfold execAll. induction pre as [|c r IH]; [reflexivity|].
  cbn [hasDigit]. intros H. apply orb_false_iff in H as [Hc Hr].
  cbn [append execAllFrom]. rewrite timeAt_no_digit by assumption. now apply IH.
Qed.

Lemma execAll_head {A : Type} (f : string -> option (A * string))
    (s : string) (a : A) (rest : string) :
  f EmptyString = None -> f s = Some (a, rest) ->
  hd_error (execAll f s) = Some a.
Proof.
  intros Hnil Hs. unfold execAll. destruct s as [|c r]; [congruence|].
  cbn [execAllFrom]. now rewrite Hs.
Qed.

(** C7.  When the scan finds no time of day, the resolver returns the
    failure object with the clarification message, without [conflict],
    alternatives or task. *)
Theorem parseTaskFromNL_no_time :
  forall (tz : Z) (formatTime formatDay : Z -> string) (newId message : string)
         (tasks : list Task) (selectedDate : Z),
    scanTimes (toLowerCase message) = [] ->
    parseTaskFromNL tz formatTime formatDay newId message tasks selectedDate
    = mkResult false None None noTimeMessage.
Proof.
  intros tz fT fD newId message tasks D H. unfold parseTaskFromNL.
  now rewrite H.
Qed.

Lemma parseTaskFromNL_no_time_witness :
  parseTaskFromNL 0 (fun _ => "") (fun _ => "") "id" "book gym" [nineToTen] 0
  = mkResult false None None noTimeMessage.
Proof.
  apply (parseTaskFromNL_no_time 0 (fun _ => "") (fun _ => "") "id" "book gym"
           [nineToTen] 0).
  reflexivity.
Defined.

(** C5.  "Schedule team sync tomorrow at 2 PM for 1 hour", no tasks,
    reference date [D]: success, with the draft titled "Team sync", of
    category "work", from 14:00 to 15:00 of the day after [D], with
    priority "medium", reminder on, not sent, not completed, and the colour
    of the work category. *)
Theorem parseTaskFromNL_team_sync :
  forall (tz : Z) (formatTime formatDay : Z -> string) (newId : string) (D : Z),
    let from := localMidnight tz D + msPerDay + 14 * msPerHour in
    let to := localMidnight tz D + msPerDay + 15 * msPerHour in
    parseTaskFromNL tz formatTime formatDay newId teamSync [] D
    = mkResult true None
        (Some (mkTask newId "Team sync" "Added via AI assistant" from to
                      false None "work" "medium" "#4A90D9" true false))
        (successMessage formatTime formatDay "Team sync" (addDays D 1) from to)
    /\ (localDay tz from = localDay tz D + 1
        /\ getHours tz from = 14 /\ getMinutes tz from = 0)
    /\ (localDay tz to = localDay tz D + 1
        /\ getHours tz to = 15 /\ getMinutes tz to = 0)
    /\ colors "work" = "#4A90D9".
Proof.
  intros tz fT fD newId D from to.
  assert (Hfrom : from = setHours tz (addDays D 1) 14 0).
  { unfold from, setHours. rewrite localMidnight_addDays. ring. }
  assert (Hto : to = setHours tz (addDays D 1) 15 0).
  { unfold to, setHours. rewrite localMidnight_addDays. ring. }
  split; [|split; [|split]].
  - assert (Ht : scanTimes (toLowerCase teamSync) = [mkTime 14 0; mkTime 1 0])
      by (vm_compute; reflexivity).
    assert (Hd : shiftDate (toLowerCase teamSync) D = addDays D 1)
      by reflexivity.
    assert (Hm : scanDuration (toLowerCase teamSync) = 60)
      by (vm_compute; reflexivity).
    assert (Hn : extractTitle teamSync = "Team sync")
      by (vm_compute; reflexivity).
    assert (Hc : detectCategory "Team sync" = "work")
      by (vm_compute; reflexivity).
    unfold parseTaskFromNL. rewrite Ht, Hd, Hm, Hn, Hc.
    cbn [checkConflict List.filter existsb].
    replace (setHours tz (addDays D 1) 14 0 + 60 * 60000) with to
      by (rewrite Hto; unfold setHours, msPerHour, msPerMinute; ring).
    rewrite <- Hfrom. reflexivity.
  - rewrite Hfrom, <- (localDay_addDays tz D 1). apply setHours_clock; lia.
  - rewrite Hto, <- (localDay_addDays tz D 1). apply setHours_clock; lia.
  - reflexivity.
Qed.

Lemma lowerChar_digit (c : ascii) : isDigit c = true -> lowerChar c = c.
Proof.
  destruct c as [[] [] [] [] [] [] [] []]; intros H;
    first [reflexivity | vm_compute in H; discriminate H].
Qed.

Lemma digitsUpTo_toLowerCase (n : nat) (s : string) :
  fst (digitsUpTo n (toLowerCase s)) = fst (digitsUpTo n s).
Proof.
  revert s. induction n as [|k IH]; intros [|c r]; try reflexivity.
  cbn [toLowerCase digitsUpTo]. rewrite isDigit_lowerChar.
  destruct (isDigit c) eqn:Hc; [|reflexivity].
  specialize (IH r).
  destruct (digitsUpTo k (toLowerCase r)), (digitsUpTo k r). simpl in *.
  now rewrite lowerChar_digit, IH.
Qed.

Lemma timeAt_hour_digits (s : string) m1 m2 m3 (rest : string) :
  timeAt s = Some ((m1, m2, m3), rest) -> m1 = fst (digitsUpTo 2 s).
Proof.
  unfold timeAt. destruct (digitsUpTo 2 s) as [d r1].
  destruct d; [discriminate|].
  destruct (colonMinutes r1) as [x r2].
  destruct (optAmPm (skipSpaces r2)) as [y r3]. now intros [= <- _ _ _].
Qed.

(** C10, as stated, fails: in "Schedule 120 minute review" the first number
    is 120, the scan reads the times 12:00 and 0:00, and the draft starts
    at hour 12. *)
Lemma scanTimes_three_digits :
  firstNumber longReview = Some 120
  /\ scanTimes (toLowerCase longReview) = [mkTime 12 0; mkTime 0 0]
  /\ option_map startTime
       (task (parseTaskFromNL 0 (fun _ => "") (fun _ => "") "id" longReview [] 0))
     = Some (12 * msPerHour)
  /\ 12 * msPerHour <> 120 * msPerHour.
Proof. repeat split. vm_compute. discriminate. Qed.

(** C10, amended.  The time scan takes any digit as the start of a time of
    day: it finds nothing, and the resolver answers with the no-time
    failure, exactly when the message has no digit; the first match starts
    at the first digit of the message, and when no am/pm marker follows,
    its hour is the number written by the first one or two digits there;
    in "Schedule 30 minute review" the 30 of the duration becomes the hour,
    so that the draft starts 30 hours after the midnight of the reference
    day. *)
Theorem scanTimes_any_digit :
  (forall message : string,
      scanTimes (toLowerCase message) = [] <-> hasDigit message = false)
  /\ (forall (tz : Z) (formatTime formatDay : Z -> string)
             (newId message : string) (tasks : list Task) (selectedDate : Z),
      parseTaskFromNL tz formatTime formatDay newId message tasks selectedDate
      = mkResult false None None noTimeMessage
      <-> hasDigit message = false)
  /\ (forall (pre suf : string) m (rest : string),
      hasDigit pre = false ->
      timeAt (toLowerCase suf) = Some (m, rest) ->
      hd_error (scanTimes (toLowerCase (pre ++ suf)%string)) = Some (toTime m))
  /\ (forall (pre suf : string) m1 m2 (rest : string),
      hasDigit pre = false ->
      timeAt (toLowerCase suf) = Some ((m1, m2, None), rest) ->
      option_map hour (hd_error (scanTimes (toLowerCase (pre ++ suf)%string)))
      = Some (parseInt (fst (digitsUpTo 2 suf))))
  /\ (forall (tz : Z) (formatTime formatDay : Z -> string) (newId : string)
             (D : Z),
      let from := localMidnight tz D + 30 * msPerHour in
      let to := from + 30 * msPerMinute in
      hd_error (scanTimes (toLowerCase minuteReview)) = Some (mkTime 30 0)
      /\ parseTaskFromNL tz formatTime formatDay newId minuteReview [] D
         = mkResult true None
             (Some (mkTask newId "30 minute review" "Added via AI assistant"
                           from to false None "work" "medium" "#4A90D9"
                           true false))
             (successMessage formatTime formatDay "30 minute review" D from to)).
Proof.
  assert (Hfirst : forall (pre suf : string) m (rest : string),
            hasDigit pre = false ->
            timeAt (toLowerCase suf) = Some (m, rest) ->
            hd_error (scanTimes (toLowerCase (pre ++ suf)%string))
            = Some (toTime m)).
  { intros pre suf m rest Hpre Hm. unfold scanTimes.
    rewrite toLowerCase_append, execAll_timeAt_prefix
      by now rewrite hasDigit_toLowerCase.
    pose proof (execAll_head timeAt _ m rest eq_refl Hm) as Hhd.
    destruct (execAll timeAt (toLowerCase suf)); simpl in *; congruence. }
  split; [exact scanTimes_nil|]. split; [|split; [exact Hfirst|split]].
  - intros tz fT fD newId message tasks D. rewrite <- scanTimes_nil. split.
    + unfold parseTaskFromNL.
      destruct (scanTimes (toLowerCase message)) as [|[h m] later]; [reflexivity|].
      destruct (checkConflict _ _ _ _); discriminate.
    + intros H. unfold parseTaskFromNL. now rewrite H.
  - intros pre suf m1 m2 rest Hpre Hm.
    rewrite (Hfirst pre suf _ rest Hpre Hm). simpl.
    apply timeAt_hour_digits in Hm. rewrite Hm, digitsUpTo_toLowerCase.
    reflexivity.
  - intros tz fT fD newId D from to. split; [vm_compute; reflexivity|].
    assert (Ht : scanTimes (toLowerCase minuteReview) = [mkTime 30 0])
      by (vm_compute; reflexivity).
    assert (Hd : shiftDate (toLowerCase minuteReview) D = D) by reflexivity.
    assert (Hm : scanDuration (toLowerCase minuteReview) = 30)
      by (vm_compute; reflexivity).
    assert (Hn : extractTitle minuteReview = "30 minute review")
      by (vm_compute; reflexivity).
    assert (Hc : detectCategory "30 minute review" = "work")
      by (vm_compute; reflexivity).
    unfold parseTaskFromNL. rewrite Ht, Hd, Hm, Hn, Hc.
    cbn [checkConflict List.filter existsb].
    replace (setHours tz D 30 0) with from
      by (unfold from, setHours, msPerMinute; ring).
    reflexivity.
Qed.

(** ** Properties of the free-slot calculator *)

Lemma sweep_cons (tz : Z) (t : Task) (rest : list Task) (cursor : Z) :
  sweep tz (t :: rest) cursor
  = ((if startMinute tz t >? cursor
      then [mkSlot cursor (startMinute tz t)] else [])
     ++ fst (sweep tz rest (Z.max cursor (endMinute tz t))),
     snd (sweep tz rest (Z.max cursor (endMinute tz t)))).
Proof.
  unfold startMinute, endMinute. cbn [sweep]. now destruct (sweep tz rest _).
Qed.

(** Whatever the tasks, the cursor never moves back, and every slot pushed
    starts between the initial and the final cursor and has a positive
    length. *)
Lemma sweep_slots (tz : Z) (dayTasks : list Task) (cursor : Z) :
  cursor <= snd (sweep tz dayTasks cursor)
  /\ Forall (fun s => cursor <= start s <= snd (sweep tz dayTasks cursor)
                      /\ start s < end_ s)
            (fst (sweep tz dayTasks cursor)).
Proof.
  revert cursor. induction dayTasks as [|t rest IH]; intros cursor.
  - simpl. split; [lia | constructor].
  - rewrite sweep_cons. cbn [fst snd].
    set (a := startMinute tz t).
    set (c' := Z.max cursor (endMinute tz t)).
    destruct (IH c') as [Hle Hall].
    assert (cursor <= c') by (unfold c'; lia).
    split; [lia|]. apply Forall_app. split.
    + destruct (a >? cursor) eqn:E; constructor; [|constructor].
      apply Z.gtb_gt in E. simpl. lia.
    + eapply Forall_impl; [exact Hall|]. simpl. intros s Hs. lia.
Qed.

Lemma sweep_sorted (tz : Z) (dayTasks : list Task) (cursor : Z) :
  StronglySorted (fun s1 s2 => start s1 <= start s2)
                 (fst (sweep tz dayTasks cursor)).
Proof.
  revert cursor. induction dayTasks as [|t rest IH]; intros cursor.
  - constructor.
  - rewrite sweep_cons. cbn [fst].
    set (c' := Z.max cursor (endMinute tz t)).
    destruct (_ >? cursor); cbn [app]; [|apply IH].
    constructor; [apply IH|].
    eapply Forall_impl; [exact (proj2 (sweep_slots tz rest c'))|].
    simpl. intros s Hs. unfold c' in Hs. lia.
Qed.

Lemma getFreeSlots_unfold (tz : Z) (tasks : list Task) (dateStr dayStart dayEnd : Z) :
  getFreeSlots tz tasks dateStr dayStart dayEnd
  = let dayTasks :=
      sortByStart
        (List.filter (fun t => isoDate (startTime t) =? dateStr) tasks) in
    let cursor := snd (sweep tz dayTasks (dayStart * 60)) in
    fst (sweep tz dayTasks (dayStart * 60))
    ++ (if cursor <? dayEnd * 60 then [mkSlot cursor (dayEnd * 60)] else []).
Proof.
  unfold getFreeSlots. cbv zeta. destruct (sweep tz _ _) as [free cursor].
  cbn [fst snd]. destruct (cursor <? dayEnd * 60); [reflexivity|].
  now rewrite app_nil_r.
Qed.

(** No slot of zero or negative length is returned, and no slot starts
    before the window. *)
Lemma getFreeSlots_positive (tz : Z) (tasks : list Task) (dateStr dayStart dayEnd : Z) :
  Forall (fun s => dayStart * 60 <= start s /\ start s < end_ s)
         (getFreeSlots tz tasks dateStr dayStart dayEnd).
Proof.
  rewrite getFreeSlots_unfold. cbv zeta.
  set (dayTasks := sortByStart _).
  destruct (sweep_slots tz dayTasks (dayStart * 60)) as [Hle Hall].
  apply Forall_app. split.
  - eapply Forall_impl; [exact Hall|]. simpl. intros s Hs. lia.
  - destruct (_ <? _) eqn:E; constructor; [|constructor].
    apply Z.ltb_lt in E. simpl. lia.
Qed.

(** The slots come out in the order of their start. *)
Lemma getFreeSlots_sorted (tz : Z) (tasks : list Task) (dateStr dayStart dayEnd : Z) :
  StronglySorted (fun s1 s2 => start s1 <= start s2)
                 (getFreeSlots tz tasks dateStr dayStart dayEnd).
Proof.
  rewrite getFreeSlots_unfold. cbv zeta.
  set (dayTasks := sortByStart _).
  apply StronglySorted_app_2.
  - intros s1 s2 H1 H2.
    pose proof (proj2 (sweep_slots tz dayTasks (dayStart * 60))) as Hall.
    rewrite Forall_forall in Hall. specialize (Hall s1 H1).
    destruct (_ <? _); [|inversion H2].
    apply list_elem_of_singleton in H2. subst s2. simpl. lia.
  - apply sweep_sorted.
  - destruct (_ <? _); repeat constructor.
Qed.

(** C1.  With the default window 08:00-22:00 and a single task from 23:00
    to 23:30 on the day, the calculator returns the one slot 08:00-23:00,
    which runs past the end of the window. *)
Theorem getFreeSlots_past_window :
  getFreeSlots 0 [lateEvening] 0 8 22 = [mkSlot 480 1380]
  /\ ~ Forall (fun s => 8 * 60 <= start s /\ end_ s <= 22 * 60)
              (getFreeSlots 0 [lateEvening] 0 8 22).
Proof.
  split; [reflexivity|].
  intros H. apply Forall_inv in H. vm_compute in H. destruct H as [_ H].
  now apply H.
Qed.

(** A task that runs over local midnight ends, on the clock, before it
    starts: the cursor stays where it was and the last slot overlaps the
    first one and the task. *)
Example getFreeSlots_over_midnight :
  getFreeSlots 0 [sampleTask "t4" (at_ 21 0) (at_ 25 0)] 0 8 22
  = [mkSlot 480 1260; mkSlot 480 1320].
Proof. reflexivity. Qed.

(** ** Properties of the intent resolver: conflicts *)

Lemma filter_sublist {A : Type} (f : A -> bool) (l : list A) :
  List.filter f l `sublist_of` l.
Proof.
  induction l as [|x l IH]; simpl; [constructor|].
  destruct (f x); now constructor.
Qed.

Lemma StronglySorted_sublist {A : Type} (R : A -> A -> Prop) (k l : list A) :
  k `sublist_of` l -> StronglySorted R l -> StronglySorted R k.
Proof.
  induction 1 as [|x k l Hkl IH|x k l Hkl IH]; intros Hl.
  - constructor.
  - apply StronglySorted_inv in Hl as [Hl Hx]. constructor; [auto|].
    rewrite Forall_forall in Hx |- *. intros y Hy. apply Hx.
    eapply elem_of_sublist; eassumption.
  - apply StronglySorted_inv in Hl as [Hl _]. auto.
Qed.

Lemma alternatives_sublist (free : list Slot) (dur : Z) :
  alternatives free dur `sublist_of` free.
Proof.
  unfold alternatives. etransitivity; [apply sublist_take | apply filter_sublist].
Qed.

Lemma alternatives_fit (free : list Slot) (dur : Z) :
  Forall (fun s => dur <= end_ s - start s /\ shownEnd dur s = start s + dur)
         (alternatives free dur).
Proof.
  apply Forall_forall. intros s Hin.
  pose proof (elem_of_sublist _ _ s Hin (sublist_take _ 3)) as Hin'.
  apply list_elem_of_In, List.filter_In in Hin' as [_ Hlen]. apply Z.geb_le in Hlen.
  unfold shownEnd. lia.
Qed.

(** C6.  When the requested interval conflicts, the resolver returns the
    conflict failure; the slots it offers are the first qualifying free
    slots of the day, at most three, in the order of the free slots, which
    is chronological; each is at least as long as the requested duration
    and is shown ending at its start plus that duration; with no free slot
    the list of alternatives is empty. *)
Theorem parseTaskFromNL_conflict :
  forall (tz : Z) (formatTime formatDay : Z -> string) (newId message : string)
         (tasks : list Task) (selectedDate h m : Z) (later : list TimeOfDay),
    let lower := toLowerCase message in
    let dur := scanDuration lower in
    let target := shiftDate lower selectedDate in
    let from := setHours tz target h m in
    let free := getFreeSlots tz tasks (isoDate target) 8 22 in
    let alts := alternatives free dur in
    scanTimes lower = mkTime h m :: later ->
    checkConflict tasks from (from + dur * 60000) None = true ->
    parseTaskFromNL tz formatTime formatDay newId message tasks selectedDate
    = mkResult false (Some true) None
               (conflictMessage (List.map (showSlot dur) alts))
    /\ (length alts <= 3)%nat
    /\ alts `sublist_of` free
    /\ (exists more,
          List.filter (fun s => end_ s - start s >=? dur) free = alts ++ more)
    /\ StronglySorted (fun s1 s2 => start s1 <= start s2) alts
    /\ Forall (fun s => dur <= end_ s - start s
                        /\ shownEnd dur s = start s + dur) alts
    /\ (free = [] -> alts = []).
Proof.
  intros tz fT fD newId message tasks D h m later lower dur target from free
         alts Htimes Hconflict.
  split; [|split; [|split; [|split; [|split; [|split]]]]].
  - unfold parseTaskFromNL. fold lower. rewrite Htimes.
    fold dur target from. rewrite Hconflict. reflexivity.
  - apply List.firstn_le_length.
  - apply alternatives_sublist.
  - exists (skipn 3 (List.filter (fun s => end_ s - start s >=? dur) free)).
    symmetry. apply List.firstn_skipn.
  - apply (StronglySorted_sublist _ alts free);
      [apply alternatives_sublist | apply getFreeSlots_sorted].
  - apply alternatives_fit.
  - intros Hfree. unfold alts. now rewrite Hfree.
Qed.

Lemma parseTaskFromNL_conflict_witness :
  parseTaskFromNL 0 (fun _ => "") (fun _ => "") "id"
                  "review at 9:30am for 2 hours" [nineToTen; elevenToNoon] 0
  = mkResult false (Some true) None
      (conflictMessage [showSlot 120 (mkSlot 720 1320)]).
Proof.
  apply (parseTaskFromNL_conflict 0 (fun _ => "") (fun _ => "") "id"
           "review at 9:30am for 2 hours" [nineToTen; elevenToNoon] 0 9 30
           [mkTime 2 0]).
  - vm_compute. reflexivity.
  - vm_compute. reflexivity.
Defined.

(** ** The free-slot calculator on the tasks of one local day *)

Lemma minutesSinceMidnight_mod (tz d : Z) :
  minutesSinceMidnight tz d = (localTime tz d mod msPerDay) / msPerMinute.
Proof.
  unfold minutesSinceMidnight, getHours, getMinutes, msPerDay, msPerHour,
    msPerMinute.
  generalize (localTime tz d). intros n.
  Z.to_euclidean_division_equations. lia.
Qed.

(** Within one local day the minute of the day grows with the instant. *)
Lemma minutesSinceMidnight_mono (tz d1 d2 : Z) :
  localDay tz d1 = localDay tz d2 -> d1 <= d2 ->
  minutesSinceMidnight tz d1 <= minutesSinceMidnight tz d2.
Proof.
  rewrite !minutesSinceMidnight_mod. unfold localDay.
  assert (localTime tz d1 <= localTime tz d2 <-> d1 <= d2)
    by (unfold localTime; lia).
  generalize dependent (localTime tz d1). generalize (localTime tz d2).
  unfold msPerDay, msPerMinute. intros n2 n1 Hequiv Hday Hle.
  apply Hequiv in Hle.
  Z.to_euclidean_division_equations. lia.
Qed.

Lemma insertByStart_perm (t : Task) (l : list Task) :
  Permutation (insertByStart t l) (t :: l).
Proof.
  induction l as [|u r IH]; simpl; [reflexivity|].
  destruct (startTime t <=? startTime u); [reflexivity|].
  rewrite IH. apply perm_swap.
Qed.

Lemma sortByStart_perm (l : list Task) : Permutation (sortByStart l) l.
Proof.
  induction l as [|t r IH]; simpl; [reflexivity|].
  rewrite insertByStart_perm. now constructor.
Qed.

Lemma insertByStart_sorted (t : Task) (l : list Task) :
  StronglySorted (fun u v => startTime u <= startTime v) l ->
  StronglySorted (fun u v => startTime u <= startTime v) (insertByStart t l).
Proof.
  induction 1 as [|u r Hr IH Hu]; simpl; [repeat constructor|].
  destruct (startTime t <=? startTime u) eqn:E.
  - apply Z.leb_le in E. constructor; [now constructor|].
    constructor; [assumption|].
    eapply Forall_impl; [exact Hu|]. simpl. intros v Hv. lia.
  - apply Z.leb_gt in E. constructor; [assumption|].
    rewrite insertByStart_perm. constructor; [lia | assumption].
Qed.

Lemma sortByStart_sorted (l : list Task) :
  StronglySorted (fun u v => startTime u <= startTime v) (sortByStart l).
Proof.
  induction l as [|t r IH]; simpl; [constructor|].
  now apply insertByStart_sorted.
Qed.

Lemma StronglySorted_weaken {A : Type} (R R' : A -> A -> Prop) (l : list A) :
  (forall x y, In x l -> In y l -> R x y -> R' x y) ->
  StronglySorted R l -> StronglySorted R' l.
Proof.
  intros HR Hl. induction Hl as [|x l Hl IH Hx]; [constructor|].
  constructor.
  - apply IH. intros y z Hy Hz. apply HR; now right.
  - rewrite List.Forall_forall in Hx |- *. intros y Hy.
    apply HR; [now left | now right | auto].
Qed.

Section Sweep.

Variable tz : Z.

Local Abbreviation A := (startMinute tz).
Local Abbreviation B := (endMinute tz).

(** When no task ends on the clock before it starts, every slot and every
    task ends at or before the final cursor, and each slot ends before the
    next one starts. *)
Lemma sweep_ends (dayTasks : list Task) (cursor : Z) :
  List.Forall (fun t => A t <= B t) dayTasks ->
  List.Forall (fun s => end_ s <= snd (sweep tz dayTasks cursor))
              (fst (sweep tz dayTasks cursor))
  /\ List.Forall (fun t => B t <= snd (sweep tz dayTasks cursor)) dayTasks.
Proof.
  revert cursor. induction dayTasks as [|t rest IH]; intros cursor Hw.
  - split; constructor.
  - rewrite sweep_cons. cbn [fst snd].
    set (c' := Z.max cursor (B t)).
    apply List.Forall_cons_iff in Hw as [Hab Hw].
    destruct (IH c' Hw) as [Hs Ht].
    pose proof (proj1 (sweep_slots tz rest c')) as Hle.
    assert (B t <= c') by (unfold c'; lia).
    split.
    + apply List.Forall_app. split; [|assumption].
      destruct (A t >? cursor); constructor; [simpl; lia | constructor].
    + constructor; [lia | assumption].
Qed.

Lemma sweep_disjoint (dayTasks : list Task) (cursor : Z) :
  List.Forall (fun t => A t <= B t) dayTasks ->
  StronglySorted (fun s1 s2 => end_ s1 <= start s2)
                 (fst (sweep tz dayTasks cursor)).
Proof.
  revert cursor. induction dayTasks as [|t rest IH]; intros cursor Hw.
  - constructor.
  - rewrite sweep_cons. cbn [fst].
    set (c' := Z.max cursor (B t)).
    apply List.Forall_cons_iff in Hw as [Hab Hw].
    destruct (A t >? cursor); cbn [app]; [|now apply IH].
    constructor; [now apply IH|].
    eapply Forall_impl; [exact (proj2 (sweep_slots tz rest c'))|].
    simpl. intros s Hs. unfold c' in Hs. lia.
Qed.

Lemma sweep_within (dayTasks : list Task) (cursor limit : Z) :
  List.Forall (fun t => A t <= limit) dayTasks ->
  List.Forall (fun s => end_ s <= limit) (fst (sweep tz dayTasks cursor)).
Proof.
  revert cursor. induction dayTasks as [|t rest IH]; intros cursor Hw.
  - constructor.
  - rewrite sweep_cons. cbn [fst].
    apply List.Forall_cons_iff in Hw as [Hab Hw].
    apply List.Forall_app. split; [|now apply IH].
    destruct (A t >? cursor); constructor; [assumption | constructor].
Qed.

(** The sweep of tasks sorted by their start minute: a minute at or after
    the initial cursor is in a slot exactly when it is before the final
    cursor and in no task. *)
Lemma sweep_cover (dayTasks : list Task) (cursor x : Z) :
  StronglySorted (fun t u => A t <= A u) dayTasks ->
  List.Forall (fun t => A t <= B t) dayTasks ->
  cursor <= x ->
  (exists s, In s (fst (sweep tz dayTasks cursor)) /\ inSlot x s)
  <-> x < snd (sweep tz dayTasks cursor)
      /\ ~ (exists t, In t dayTasks /\ busyAt tz x t).
Proof.
  revert cursor. induction dayTasks as [|t rest IH]; intros cursor Hs Hw Hc.
  - simpl. split; [intros (s & [] & _) | intros [Hlt _]; lia].
  - rewrite sweep_cons. cbn [fst snd].
    set (c' := Z.max cursor (B t)).
    apply StronglySorted_inv in Hs as [Hs Hall].
    rewrite List.Forall_forall in Hall.
    apply List.Forall_cons_iff in Hw as [Hab Hw].
    destruct (sweep_slots tz rest c') as [Hle Hsl].
    rewrite List.Forall_forall in Hsl.
    destruct (Z_lt_le_dec x c') as [Hx|Hx].
    + split.
      * intros (s & Hin & Hxs). apply in_app_iff in Hin as [Hin|Hin].
        -- destruct (A t >? cursor); [|destruct Hin].
           destruct Hin as [<-|[]]. unfold inSlot in Hxs. simpl in Hxs.
           split; [lia|]. intros (u & [<-|Hu] & Hb).
           ++ unfold busyAt in Hb. lia.
           ++ specialize (Hall u Hu). unfold busyAt in Hb. lia.
        -- specialize (Hsl s Hin). unfold inSlot in Hxs. lia.
      * intros [Hlt Hnb]. destruct (Z_lt_le_dec x (A t)) as [Hxa|Hxa].
        -- exists (mkSlot cursor (A t)). split; [|unfold inSlot; simpl; lia].
           apply in_app_iff. left.
           replace (A t >? cursor) with true by (symmetry; apply Z.gtb_gt; lia).
           now left.
        -- exfalso. apply Hnb. exists t. split; [now left|].
           unfold busyAt. unfold c' in Hx. lia.
    + specialize (IH c' Hs Hw Hx). split.
      * intros (s & Hin & Hxs). apply in_app_iff in Hin as [Hin|Hin].
        -- destruct (A t >? cursor); [|destruct Hin].
           destruct Hin as [<-|[]]. unfold inSlot in Hxs. simpl in Hxs.
           unfold c' in Hx. lia.
        -- destruct (proj1 IH (ex_intro _ s (conj Hin Hxs))) as [Hlt Hnb].
           split; [assumption|]. intros (u & [<-|Hu] & Hb).
           ++ unfold busyAt in Hb. unfold c' in Hx. lia.
           ++ apply Hnb. now exists u.
      * intros [Hlt Hnb]. destruct (proj2 IH) as (s & Hin & Hxs).
        -- split; [assumption|]. intros (u & Hu & Hb). apply Hnb.
           exists u. split; [now right | assumption].
        -- exists s. split; [|assumption]. apply in_app_iff. now right.
Qed.

End Sweep.

(** The example of the specification: tasks 09:00-10:00 and 11:00-12:00 in
    the window 08:00-22:00. *)
Example getFreeSlots_two_tasks :
  getFreeSlots 0 [elevenToNoon; nineToTen] 0 8 22
  = [mkSlot 480 540; mkSlot 600 660; mkSlot 720 1320].
Proof. reflexivity. Qed.

(** X9.  What the calculator guarantees when the tasks selected for the day
    start and end on one and the same local day [L]: within the window a
    minute is in a returned slot exactly when it is in no selected task;
    the slots are in order and pairwise disjoint, of positive length, and
    start inside the window; and they end inside the window when no
    selected task starts after its end. *)
Theorem getFreeSlots_partition :
  forall (tz : Z) (tasks : list Task) (dateStr dayStart dayEnd L : Z),
    (forall t, In t tasks -> isoDate (startTime t) = dateStr ->
               localDay tz (startTime t) = L /\ localDay tz (endTime t) = L
               /\ startTime t <= endTime t) ->
    let free := getFreeSlots tz tasks dateStr dayStart dayEnd in
    (forall x, dayStart * 60 <= x < dayEnd * 60 ->
       ((exists s, In s free /\ inSlot x s)
        <-> ~ (exists t, In t tasks /\ isoDate (startTime t) = dateStr
                         /\ busyAt tz x t)))
    /\ StronglySorted (fun s1 s2 => end_ s1 <= start s2) free
    /\ List.Forall (fun s => dayStart * 60 <= start s < end_ s) free
    /\ ((forall t, In t tasks -> isoDate (startTime t) = dateStr ->
                   startMinute tz t <= dayEnd * 60) ->
        List.Forall (fun s => end_ s <= dayEnd * 60) free).
Proof.
  intros tz tasks dateStr dayStart dayEnd L Hday free. subst free.
  rewrite getFreeSlots_unfold. cbv zeta.
  set (dayTasks := sortByStart _).
  assert (Hin : forall t, In t dayTasks
                          <-> In t tasks /\ isoDate (startTime t) = dateStr).
  { intros t. unfold dayTasks. split.
    - intros H. apply (Permutation_in _ (sortByStart_perm _)) in H.
      apply List.filter_In in H as [H1 H2]. apply Z.eqb_eq in H2. now split.
    - intros [H1 H2].
      apply (Permutation_in _ (Permutation_sym (sortByStart_perm _))).
      apply List.filter_In. split; [assumption|]. now apply Z.eqb_eq. }
  assert (Hwf : List.Forall (fun t => startMinute tz t <= endMinute tz t)
                            dayTasks).
  { apply List.Forall_forall. intros t Ht. apply Hin in Ht as [Ht Hd].
    destruct (Hday t Ht Hd) as (H1 & H2 & H3).
    apply minutesSinceMidnight_mono; congruence. }
  assert (Hsorted : StronglySorted
                      (fun t u => startMinute tz t <= startMinute tz u)
                      dayTasks).
  { apply (StronglySorted_weaken
             (fun u v => startTime u <= startTime v));
      [|apply sortByStart_sorted].
    intros t u Ht Hu Hle. apply Hin in Ht as [Ht Hdt]. apply Hin in Hu as [Hu Hdu].
    destruct (Hday t Ht Hdt) as (H1 & _). destruct (Hday u Hu Hdu) as (H2 & _).
    apply minutesSinceMidnight_mono; congruence. }
  set (c0 := dayStart * 60) in *. set (limit := dayEnd * 60) in *.
  destruct (sweep_ends tz dayTasks c0 Hwf) as [Hends Hbusy].
  rewrite List.Forall_forall in Hends, Hbusy.
  set (last := snd (sweep tz dayTasks c0)) in *.
  split; [|split; [|split]].
  - intros x [Hlo Hhi].
    pose proof (sweep_cover tz dayTasks c0 x Hsorted Hwf Hlo) as Hcover.
    fold last in Hcover.
    assert (Hsel : (exists t, In t dayTasks /\ busyAt tz x t)
                   <-> (exists t, In t tasks /\ isoDate (startTime t) = dateStr
                                  /\ busyAt tz x t)).
    { split.
      - intros (t & Ht & Hb). apply Hin in Ht as [Ht Hd]. now exists t.
      - intros (t & Ht & Hd & Hb). exists t. split; [|assumption].
        apply Hin. now split. }
    rewrite <- Hsel. destruct (Z_lt_le_dec x last) as [Hx|Hx].
    + split.
      * intros (s & Hs & Hxs). apply in_app_iff in Hs as [Hs|Hs].
        -- now apply Hcover; exists s.
        -- destruct (last <? limit); [|destruct Hs].
           destruct Hs as [<-|[]]. unfold inSlot in Hxs. simpl in Hxs. lia.
      * intros Hfree. destruct (proj2 Hcover (conj Hx Hfree)) as (s & Hs & Hxs).
        exists s. split; [|assumption]. apply in_app_iff. now left.
    + split.
      * intros _ (t & Ht & Hb). specialize (Hbusy t Ht). unfold busyAt in Hb.
        simpl in Hbusy. lia.
      * intros _. exists (mkSlot last limit).
        split; [|unfold inSlot; simpl; lia].
        apply in_app_iff. right.
        replace (last <? limit) with true by (symmetry; apply Z.ltb_lt; lia).
        now left.
  - apply StronglySorted_app_2.
    + intros s1 s2 H1 H2. apply list_elem_of_In in H1. specialize (Hends s1 H1).
      destruct (last <? limit); [|inversion H2].
      apply list_elem_of_singleton in H2. subst s2. exact Hends.
    + now apply sweep_disjoint.
    + destruct (last <? limit); repeat constructor.
  - pose proof (getFreeSlots_positive tz tasks dateStr dayStart dayEnd) as Hpos.
    rewrite getFreeSlots_unfold in Hpos. cbv zeta in Hpos.
    eapply List.Forall_impl; [|exact Hpos]. simpl. intros s Hs. exact Hs.
  - intros Hlate. apply List.Forall_app. split.
    + apply sweep_within. apply List.Forall_forall. intros t Ht.
      apply Hin in Ht as [Ht Hd]. now apply Hlate.
    + destruct (last <? limit); constructor; [simpl; lia | constructor].
Qed.

Lemma getFreeSlots_partition_witness :
  StronglySorted (fun s1 s2 => end_ s1 <= start s2)
                 (getFreeSlots 0 [elevenToNoon; nineToTen] 0 8 22).
Proof.
  apply (getFreeSlots_partition 0 [elevenToNoon; nineToTen] 0 8 22 0).
  intros t [<-|[<-|[]]] _; vm_compute; repeat split; discriminate.
Defined.

(** ** Further examples *)

(** The reminder window in milliseconds. *)
Lemma dueSoon_ms (now : Z) (t : Task) :
  dueSoon now t = true <-> 0 < startTime t - now <= 900000.
Proof.
  rewrite dueSoon_spec. unfold minsUntil.
  generalize (startTime t - now). intros ms.
  unfold Qlt, Qle, Qdiv, Qmult, Qinv, inject_Z. simpl. lia.
Qed.

(** The examples of the specification: a task starting in 10 minutes is
    notified once, a poll one second later does nothing, and a task
    starting in 20 minutes is left alone. *)
Example polls_ten_minutes_before :
  polls [at_ 8 50; at_ 8 50 + 1000] [nineToTen]
  = ([markSent nineToTen], [[nineToTen]; []])
  /\ checkReminders (at_ 8 40) [nineToTen] = ([nineToTen], []).
Proof. split; reflexivity. Qed.

(** ** More on the conflict detector *)

Lemma checkConflict_exists (tasks : list Task) (ns ne : Z) (ex : option string) :
  checkConflict tasks ns ne ex = true
  <-> exists t, In t tasks /\ notExcluded ex t = true /\ overlaps ns ne t = true.
Proof.
  unfold checkConflict. rewrite existsb_exists. split.
  - intros (t & Hin & Hov). apply List.filter_In in Hin as [Hin Hex]. eauto.
  - intros (t & Hin & Hex & Hov). exists t. split; [|assumption].
    apply List.filter_In. now split.
Qed.

(** X1.  For a candidate and tasks that all start before they end, the
    detector answers [true] exactly when the candidate and some
    non-excluded task, read as half-open intervals, share an instant. *)
Theorem checkConflict_shared_instant :
  forall (tasks : list Task) (ns ne : Z) (ex : option string),
    ns < ne ->
    List.Forall (fun t => startTime t < endTime t) tasks ->
    (checkConflict tasks ns ne ex = true
     <-> exists t x, In t tasks /\ Some (id t) <> ex
                     /\ ns <= x < ne /\ startTime t <= x < endTime t).
Proof.
  intros tasks ns ne ex Hc Hwf. rewrite List.Forall_forall in Hwf.
  rewrite checkConflict_exists. split.
  - intros (t & Hin & Hex & Hov). apply notExcluded_spec in Hex.
    apply overlaps_spec in Hov. specialize (Hwf t Hin).
    exists t, (Z.max ns (startTime t)). repeat split; auto; lia.
  - intros (t & x & Hin & Hex & Hx & Ht). exists t.
    split; [assumption|]. split; [now apply notExcluded_spec|].
    apply overlaps_spec. lia.
Qed.

Lemma checkConflict_shared_instant_witness :
  checkConflict [nineToTen; elevenToNoon] (at_ 9 30) (at_ 10 30) None = true
  <-> exists t x, In t [nineToTen; elevenToNoon] /\ Some (id t) <> None
                  /\ at_ 9 30 <= x < at_ 10 30
                  /\ startTime t <= x < endTime t.
Proof.
  apply (checkConflict_shared_instant [nineToTen; elevenToNoon]
           (at_ 9 30) (at_ 10 30) None).
  - reflexivity.
  - repeat constructor.
Defined.

(** X2.  A conflict stays a conflict when the candidate interval is
    widened and when tasks are added to the collection. *)
Theorem checkConflict_monotone :
  forall (tasks tasks' : list Task) (ns ne ns' ne' : Z) (ex : option string),
    (forall t, In t tasks -> In t tasks') ->
    ns' <= ns -> ne <= ne' ->
    checkConflict tasks ns ne ex = true ->
    checkConflict tasks' ns' ne' ex = true.
Proof.
  intros tasks tasks' ns ne ns' ne' ex Hincl Hs He.
  rewrite !checkConflict_exists. intros (t & Hin & Hex & Hov).
  exists t. split; [auto|]. split; [assumption|].
  apply overlaps_spec in Hov. apply overlaps_spec. lia.
Qed.

Lemma checkConflict_monotone_witness :
  checkConflict [elevenToNoon; nineToTen] (at_ 9 0) (at_ 11 0) None = true.
Proof.
  apply (checkConflict_monotone [nineToTen] [elevenToNoon; nineToTen]
           (at_ 9 30) (at_ 10 30) (at_ 9 0) (at_ 11 0) None).
  - intros t [<-|[]]. right. now left.
  - vm_compute. discriminate.
  - vm_compute. discriminate.
  - reflexivity.
Defined.

(** X3.  Deleting the tasks of an id from the collection gives the same
    answer as passing that id as exclusion id; excluding the id once more
    from the shortened collection changes nothing. *)
Theorem checkConflict_delete_is_exclude :
  forall (tasks : list Task) (taskId : string) (ns ne : Z),
    checkConflict (deleteTask taskId tasks) ns ne None
    = checkConflict tasks ns ne (Some taskId)
    /\ checkConflict (deleteTask taskId tasks) ns ne (Some taskId)
       = checkConflict tasks ns ne (Some taskId).
Proof.
  intros tasks taskId ns ne. unfold checkConflict, deleteTask.
  induction tasks as [|t l [IH1 IH2]]; [split; reflexivity|].
  cbn [List.filter notExcluded] in *.
  destruct (String.eqb (id t) taskId) eqn:E; cbn [negb List.filter notExcluded].
  - split; assumption.
  - rewrite E. cbn [negb existsb]. rewrite IH1, IH2. split; reflexivity.
Qed.

(** X4.  Deleting by id removes exactly the tasks with that id and keeps
    the others in their order; deleting again changes nothing; and it
    undoes the adding of a task whose id was not in the collection. *)
Theorem deleteTask_removes_id :
  forall (tasks : list Task) (taskId : string),
    (forall t, In t (deleteTask taskId tasks) <-> In t tasks /\ id t <> taskId)
    /\ deleteTask taskId tasks `sublist_of` tasks
    /\ deleteTask taskId (deleteTask taskId tasks) = deleteTask taskId tasks
    /\ (forall row, id row = taskId ->
          ~ In taskId (List.map id tasks) ->
          deleteTask taskId (appendTask tasks row) = tasks).
Proof.
  intros tasks taskId. unfold deleteTask, appendTask. repeat split.
  - apply List.filter_In in H. apply H.
  - apply List.filter_In in H as [_ H]. apply negb_true_iff in H.
    now apply String.eqb_neq.
  - intros [Hin Hne]. apply List.filter_In. split; [assumption|].
    apply negb_true_iff. now apply String.eqb_neq.
  - apply filter_sublist.
  - induction tasks as [|t l IH]; [reflexivity|]. simpl.
    destruct (String.eqb (id t) taskId) eqn:E; simpl; [assumption|].
    now rewrite E, IH.
  - intros row Hrow Hfresh. rewrite List.filter_app. simpl.
    rewrite Hrow, String.eqb_refl. simpl. rewrite app_nil_r.
    induction tasks as [|t l IH]; [reflexivity|]. simpl in *.
    destruct (String.eqb (id t) taskId) eqn:E.
    + apply String.eqb_eq in E. tauto.
    + simpl. f_equal. apply IH. tauto.
Qed.

(** ** More on the clock and on the free-slot calculator *)

(** X5.  The minute of the day is between 0 and 1439, is the same a whole
    number of days later, and is [h * 60 + m] at the instant [setHours]
    gives for an hour and a minute of the clock. *)
Theorem minutesSinceMidnight_clock :
  forall (tz d : Z),
    0 <= minutesSinceMidnight tz d < 1440
    /\ (forall n, minutesSinceMidnight tz (addDays d n)
                  = minutesSinceMidnight tz d)
    /\ (forall h m, 0 <= h < 24 -> 0 <= m < 60 ->
          minutesSinceMidnight tz (setHours tz d h m) = h * 60 + m).
Proof.
  intros tz d. split; [|split].
  - rewrite minutesSinceMidnight_mod. unfold msPerDay, msPerMinute.
    generalize (localTime tz d). intros n.
    Z.to_euclidean_division_equations. lia.
  - intros n. rewrite !minutesSinceMidnight_mod. f_equal.
    unfold localTime, addDays.
    replace (d + n * msPerDay + tz * msPerMinute)
      with (d + tz * msPerMinute + n * msPerDay) by ring.
    apply Z_mod_plus_full.
  - intros h m Hh Hm. unfold minutesSinceMidnight.
    destruct (setHours_clock tz d h m Hh Hm) as (_ & -> & ->). reflexivity.
Qed.

Lemma minutesSinceMidnight_bounds (tz d : Z) :
  0 <= minutesSinceMidnight tz d <= 1439.
Proof.
  rewrite minutesSinceMidnight_mod. unfold msPerDay, msPerMinute.
  generalize (localTime tz d). intros n.
  Z.to_euclidean_division_equations. lia.
Qed.

Lemma filter_none {A : Type} (f : A -> bool) (l : list A) :
  (forall x, In x l -> f x = false) -> List.filter f l = [].
Proof.
  induction l as [|x l IH]; [reflexivity|]. intros H. simpl.
  rewrite (H x) by now left. apply IH. intros y Hy. apply H. now right.
Qed.

(** X6.  When no task of the collection starts on the day, the result is
    the whole window as one slot, or nothing when the window is empty. *)
Theorem getFreeSlots_no_task :
  forall (tz : Z) (tasks : list Task) (dateStr dayStart dayEnd : Z),
    (forall t, In t tasks -> isoDate (startTime t) <> dateStr) ->
    getFreeSlots tz tasks dateStr dayStart dayEnd
    = if dayStart * 60 <? dayEnd * 60
      then [mkSlot (dayStart * 60) (dayEnd * 60)] else [].
Proof.
  intros tz tasks dateStr dayStart dayEnd Hnone. unfold getFreeSlots.
  rewrite filter_none; [reflexivity|].
  intros t Ht. apply Z.eqb_neq. now apply Hnone.
Qed.

Lemma getFreeSlots_no_task_witness :
  getFreeSlots 0 [nineToTen; elevenToNoon] 1 8 22 = [mkSlot 480 1320].
Proof.
  apply (getFreeSlots_no_task 0 [nineToTen; elevenToNoon] 1 8 22).
  intros t [<-|[<-|[]]]; vm_compute; discriminate.
Defined.

Lemma sweep_length (tz : Z) (dayTasks : list Task) (cursor : Z) :
  (length (fst (sweep tz dayTasks cursor)) <= length dayTasks)%nat.
Proof.
  revert cursor. induction dayTasks as [|t rest IH]; intros cursor; [simpl; lia|].
  rewrite sweep_cons. cbn [fst]. rewrite length_app.
  specialize (IH (Z.max cursor (endMinute tz t))).
  destruct (_ >? cursor); simpl; lia.
Qed.

Lemma sweep_ends_at_starts (tz : Z) (dayTasks : list Task) (cursor : Z) :
  List.Forall (fun s => exists t, In t dayTasks /\ end_ s = startMinute tz t)
              (fst (sweep tz dayTasks cursor)).
Proof.
  revert cursor. induction dayTasks as [|t rest IH]; intros cursor; [constructor|].
  rewrite sweep_cons. cbn [fst]. apply List.Forall_app. split.
  - destruct (_ >? cursor); constructor; [|constructor].
    exists t. split; [now left | reflexivity].
  - eapply List.Forall_impl; [|apply IH]. simpl.
    intros s (u & Hu & Hs). exists u. split; [now right | assumption].
Qed.

Lemma dayTasks_In (tasks : list Task) (dateStr : Z) (t : Task) :
  In t (sortByStart
          (List.filter (fun t => isoDate (startTime t) =? dateStr) tasks))
  <-> In t tasks /\ isoDate (startTime t) = dateStr.
Proof.
  split.
  - intros H. apply (Permutation_in _ (sortByStart_perm _)) in H.
    apply List.filter_In in H as [H1 H2]. apply Z.eqb_eq in H2. now split.
  - intros [H1 H2].
    apply (Permutation_in _ (Permutation_sym (sortByStart_perm _))).
    apply List.filter_In. split; [assumption|]. now apply Z.eqb_eq.
Qed.

Lemma getFreeSlots_ends (tz : Z) (tasks : list Task) (dateStr dayStart dayEnd : Z) :
  List.Forall
    (fun s => end_ s = dayEnd * 60
              \/ exists t, In t tasks /\ isoDate (startTime t) = dateStr
                           /\ end_ s = startMinute tz t)
    (getFreeSlots tz tasks dateStr dayStart dayEnd).
Proof.
  rewrite getFreeSlots_unfold. cbv zeta. apply List.Forall_app. split.
  - eapply List.Forall_impl; [|apply sweep_ends_at_starts]. simpl.
    intros s (t & Ht & Hs). right. exists t.
    apply dayTasks_In in Ht as [Ht Hd]. auto.
  - destruct (_ <? _); constructor; [now left | constructor].
Qed.

Lemma getFreeSlots_ends_max (tz : Z) (tasks : list Task) (dateStr dayStart dayEnd : Z) :
  List.Forall (fun s => end_ s <= Z.max (dayEnd * 60) 1439)
              (getFreeSlots tz tasks dateStr dayStart dayEnd).
Proof.
  eapply List.Forall_impl; [|apply getFreeSlots_ends]. simpl.
  intros s [Hs|(t & _ & _ & Hs)]; [lia|].
  rewrite Hs. unfold startMinute.
  pose proof (minutesSinceMidnight_bounds tz (startTime t)). lia.
Qed.

(** X7.  Whatever the tasks and the window: every slot returned starts at
    or after the window start and has a positive length, the slots are in
    the order of their starts, there is at most one more slot than tasks
    starting on the day, and every slot ends at the window end or at the
    start minute of a task of the day, hence at or before the later of
    the window end and 23:59. *)
Theorem getFreeSlots_shape :
  forall (tz : Z) (tasks : list Task) (dateStr dayStart dayEnd : Z),
    let free := getFreeSlots tz tasks dateStr dayStart dayEnd in
    List.Forall (fun s => dayStart * 60 <= start s < end_ s) free
    /\ StronglySorted (fun s1 s2 => start s1 <= start s2) free
    /\ (length free
        <= S (length (List.filter
                        (fun t => (isoDate (startTime t) =? dateStr)%Z)
                        tasks)))%nat
    /\ List.Forall
         (fun s => end_ s = dayEnd * 60
                   \/ exists t, In t tasks /\ isoDate (startTime t) = dateStr
                                /\ end_ s = startMinute tz t) free
    /\ List.Forall (fun s => end_ s <= Z.max (dayEnd * 60) 1439) free.
Proof.
  intros tz tasks dateStr dayStart dayEnd free.
  split; [|split; [|split; [|split]]].
  - eapply List.Forall_impl; [|apply getFreeSlots_positive]. simpl. tauto.
  - apply getFreeSlots_sorted.
  - unfold free. rewrite getFreeSlots_unfold. cbv zeta. rewrite length_app.
    pose proof (sweep_length tz
      (sortByStart (List.filter (fun t => isoDate (startTime t) =? dateStr) tasks))
      (dayStart * 60)) as Hlen.
    rewrite (Permutation_length (sortByStart_perm _)) in Hlen.
    destruct (_ <? _); simpl; lia.
  - apply getFreeSlots_ends.
  - apply getFreeSlots_ends_max.
Qed.

(** X8.  With a window that runs to midnight or later, every slot lies
    within the window, whatever the tasks. *)
Theorem getFreeSlots_within_full_day :
  forall (tz : Z) (tasks : list Task) (dateStr dayStart dayEnd : Z),
    24 <= dayEnd ->
    List.Forall (fun s => dayStart * 60 <= start s /\ end_ s <= dayEnd * 60)
                (getFreeSlots tz tasks dateStr dayStart dayEnd).
Proof.
  intros tz tasks dateStr dayStart dayEnd Hend.
  pose proof (getFreeSlots_positive tz tasks dateStr dayStart dayEnd) as Hpos.
  rewrite List.Forall_forall in Hpos |- *. intros s Hs.
  split; [apply (Hpos s Hs)|].
  revert s Hs. apply List.Forall_forall.
  rewrite getFreeSlots_unfold. cbv zeta. apply List.Forall_app. split.
  - eapply List.Forall_impl; [|apply sweep_ends_at_starts]. simpl.
    intros s (t & _ & ->). unfold startMinute.
    pose proof (minutesSinceMidnight_bounds tz (startTime t)). lia.
  - destruct (_ <? _); constructor; [simpl; lia | constructor].
Qed.

Lemma getFreeSlots_within_full_day_witness :
  List.Forall (fun s => 8 * 60 <= start s /\ end_ s <= 24 * 60)
              (getFreeSlots 0 [lateEvening] 0 8 24).
Proof.
  apply (getFreeSlots_within_full_day 0 [lateEvening] 0 8 24). lia.
Defined.

Lemma sweep_apart (tz : Z) (dayTasks : list Task) (cursor : Z) (s : Slot) (t : Task) :
  StronglySorted (fun t u => startMinute tz t <= startMinute tz u) dayTasks ->
  List.Forall (fun t => startMinute tz t <= endMinute tz t) dayTasks ->
  In s (fst (sweep tz dayTasks cursor)) -> In t dayTasks ->
  endMinute tz t <= start s \/ end_ s <= startMinute tz t.
Proof.
  revert cursor. induction dayTasks as [|t0 rest IH]; intros cursor Hs Hw Hin Ht.
  - destruct Ht.
  - rewrite sweep_cons in Hin. cbn [fst] in Hin.
    apply StronglySorted_inv in Hs as [Hs Hall].
    rewrite List.Forall_forall in Hall.
    apply List.Forall_cons_iff in Hw as [Hab Hw].
    apply in_app_iff in Hin as [Hin|Hin].
    + destruct (_ >? cursor); [|destruct Hin]. destruct Hin as [<-|[]]. simpl.
      right. destruct Ht as [<-|Ht]; [lia | now apply Hall].
    + destruct Ht as [<-|Ht]; [|now apply (IH _ Hs Hw Hin)].
      left.
      pose proof (proj2 (sweep_slots tz rest
                          (Z.max cursor (endMinute tz t0)))) as Hsl.
      rewrite List.Forall_forall in Hsl. specialize (Hsl s Hin). simpl in Hsl. lia.
Qed.

(** An instant of local day [L] on a whole minute, from its minute of the
    day. *)
Lemma whole_minute_instant (tz d L : Z) :
  localDay tz d = L -> d mod msPerMinute = 0 ->
  d = L * msPerDay - tz * msPerMinute + minutesSinceMidnight tz d * msPerMinute.
Proof.
  rewrite minutesSinceMidnight_mod. unfold localDay, localTime.
  unfold msPerDay, msPerMinute. intros HL Hm.
  Z.to_euclidean_division_equations. lia.
Qed.

Section Bookable.

Variables (tz : Z) (tasks : list Task) (dateStr dayStart dayEnd L : Z).

(** Midnight of local day [L]. *)
Let M : Z := L * msPerDay - tz * msPerMinute.

Hypothesis window : 0 <= dayStart /\ dayEnd <= 24.

(** The tasks of the day start and end on local day [L], on whole
    minutes, and do not end before they start. *)
Hypothesis onDay :
  forall t, In t tasks -> isoDate (startTime t) = dateStr ->
    localDay tz (startTime t) = L /\ localDay tz (endTime t) = L
    /\ startTime t <= endTime t
    /\ startTime t mod msPerMinute = 0 /\ endTime t mod msPerMinute = 0.

(** The other tasks lie outside local day [L]. *)
Hypothesis offDay :
  forall t, In t tasks -> isoDate (startTime t) <> dateStr ->
    endTime t <= M \/ M + msPerDay <= startTime t.

Lemma free_slot_apart (s : Slot) (t : Task) :
  In s (getFreeSlots tz tasks dateStr dayStart dayEnd) ->
  In t tasks -> isoDate (startTime t) = dateStr ->
  endMinute tz t <= start s \/ end_ s <= startMinute tz t.
Proof.
  intros Hs Ht Hd. rewrite getFreeSlots_unfold in Hs. cbv zeta in Hs.
  set (dayTasks := sortByStart _) in Hs.
  assert (Hwf : List.Forall (fun t => startMinute tz t <= endMinute tz t)
                            dayTasks).
  { apply List.Forall_forall. intros u Hu. apply dayTasks_In in Hu as [Hu Hdu].
    destruct (onDay u Hu Hdu) as (H1 & H2 & H3 & _).
    apply minutesSinceMidnight_mono; congruence. }
  assert (Hsorted : StronglySorted
                      (fun t u => startMinute tz t <= startMinute tz u)
                      dayTasks).
  { apply (StronglySorted_weaken (fun u v => startTime u <= startTime v));
      [|apply sortByStart_sorted].
    intros u v Hu Hv Hle.
    apply dayTasks_In in Hu as [Hu Hdu]. apply dayTasks_In in Hv as [Hv Hdv].
    destruct (onDay u Hu Hdu) as (H1 & _). destruct (onDay v Hv Hdv) as (H2 & _).
    apply minutesSinceMidnight_mono; congruence. }
  assert (Htd : In t dayTasks) by (apply dayTasks_In; now split).
  apply in_app_iff in Hs as [Hs|Hs].
  - now apply (sweep_apart tz dayTasks (dayStart * 60)).
  - destruct (_ <? _); [|destruct Hs]. destruct Hs as [<-|[]]. simpl. left.
    pose proof (proj2 (sweep_ends tz dayTasks (dayStart * 60) Hwf)) as Hends.
    rewrite List.Forall_forall in Hends. now apply Hends.
Qed.

Lemma free_slot_bookable (s : Slot) (dur : Z) :
  In s (getFreeSlots tz tasks dateStr dayStart dayEnd) ->
  0 <= dur -> start s + dur <= end_ s ->
  checkConflict tasks (M + start s * msPerMinute)
                (M + (start s + dur) * msPerMinute) None = false.
Proof.
  intros Hs Hdur Hfit.
  destruct (checkConflict _ _ _ _) eqn:E; [exfalso | reflexivity].
  apply checkConflict_exists in E as (t & Ht & _ & Hov).
  apply overlaps_spec in Hov.
  pose proof (getFreeSlots_positive tz tasks dateStr dayStart dayEnd) as Hpos.
  pose proof (getFreeSlots_ends_max tz tasks dateStr dayStart dayEnd) as Hmax.
  rewrite List.Forall_forall in Hpos, Hmax.
  specialize (Hpos s Hs). specialize (Hmax s Hs). simpl in Hpos, Hmax.
  destruct window as [Hlo Hhi].
  destruct (Z.eq_dec (isoDate (startTime t)) dateStr) as [Hd|Hd].
  - destruct (onDay t Ht Hd) as (H1 & H2 & _ & H4 & H5).
    pose proof (whole_minute_instant tz _ L H1 H4) as Hst.
    pose proof (whole_minute_instant tz _ L H2 H5) as Hen.
    fold (startMinute tz t) in Hst. fold (endMinute tz t) in Hen. fold M in Hst, Hen.
    pose proof (free_slot_apart s t Hs Ht Hd) as Hap.
    unfold msPerMinute in *. lia.
  - pose proof (offDay t Ht Hd) as Hoff.
    unfold msPerMinute, msPerDay in *. lia.
Qed.

End Bookable.

(** X10.  When the tasks of the day start and end on one local day, on
    whole minutes, and the other tasks lie outside that day, a free slot
    of a window inside the day and a task of the day fail the overlap test
    of the conflict detector, and any interval inside a free slot can be
    booked: the detector finds no conflict for it.  In particular every
    alternative the resolver offers, from its start to its shown end, is
    free of conflicts. *)
Theorem alternatives_bookable :
  forall (tz : Z) (tasks : list Task) (dateStr dayStart dayEnd L : Z),
    let M := L * msPerDay - tz * msPerMinute in
    0 <= dayStart /\ dayEnd <= 24 ->
    (forall t, In t tasks -> isoDate (startTime t) = dateStr ->
       localDay tz (startTime t) = L /\ localDay tz (endTime t) = L
       /\ startTime t <= endTime t
       /\ startTime t mod msPerMinute = 0 /\ endTime t mod msPerMinute = 0) ->
    (forall t, In t tasks -> isoDate (startTime t) <> dateStr ->
       endTime t <= M \/ M + msPerDay <= startTime t) ->
    let free := getFreeSlots tz tasks dateStr dayStart dayEnd in
    (forall s t, In s free -> In t tasks -> isoDate (startTime t) = dateStr ->
       endMinute tz t <= start s \/ end_ s <= startMinute tz t)
    /\ (forall s dur, In s free -> 0 <= dur -> start s + dur <= end_ s ->
          checkConflict tasks (M + start s * msPerMinute)
                        (M + (start s + dur) * msPerMinute) None = false)
    /\ (forall s dur, 0 <= dur -> In s (alternatives free dur) ->
          checkConflict tasks (M + start s * msPerMinute)
                        (M + shownEnd dur s * msPerMinute) None = false).
Proof.
  intros tz tasks dateStr dayStart dayEnd L M Hwin Hon Hoff free.
  split; [|split].
  - intros s t. now apply (free_slot_apart tz tasks dateStr dayStart dayEnd L).
  - intros s dur.
    apply (free_slot_bookable tz tasks dateStr dayStart dayEnd L Hwin Hon Hoff).
  - intros s dur Hdur Hs.
    pose proof (alternatives_fit free dur) as Hfit.
    rewrite List.Forall_forall in Hfit. destruct (Hfit s Hs) as [Hlen ->].
    apply (free_slot_bookable tz tasks dateStr dayStart dayEnd L Hwin Hon Hoff);
      [|assumption|lia].
    apply list_elem_of_In.
    apply (elem_of_sublist (alternatives free dur));
      [apply list_elem_of_In; exact Hs | apply alternatives_sublist].
Qed.

Lemma alternatives_bookable_witness :
  checkConflict [nineToTen; elevenToNoon] (0 + 600 * msPerMinute)
                (0 + (600 + 60) * msPerMinute) None = false.
Proof.
  refine (proj1 (proj2 (alternatives_bookable 0 [nineToTen; elevenToNoon]
                          0 8 22 0 _ _ _)) (mkSlot 600 660) 60 _ _ _).
  - lia.
  - intros t [<-|[<-|[]]] _; vm_compute; repeat split; discriminate.
  - intros t [<-|[<-|[]]] H; exfalso; apply H; reflexivity.
  - right. left. reflexivity.
  - lia.
  - simpl. lia.
Defined.

Lemma filter_Permutation {A : Type} (f : A -> bool) (l l' : list A) :
  Permutation l l' -> Permutation (List.filter f l) (List.filter f l').
Proof.
  induction 1 as [|x l l' H IH|x y l|l l' l'' H1 IH1 H2 IH2]; simpl.
  - constructor.
  - destruct (f x); [now constructor | assumption].
  - destruct (f x), (f y); try reflexivity. apply perm_swap.
  - now transitivity (List.filter f l').
Qed.

Lemma NoDup_starts_inj (l : list Task) (u v : Task) :
  List.NoDup (List.map startTime l) -> In u l -> In v l ->
  startTime u = startTime v -> u = v.
Proof.
  induction l as [|x l IH]; simpl; [intros _ []|].
  intros Hnd Hu Hv Hk. apply List.NoDup_cons_iff in Hnd as [Hx Hnd].
  destruct Hu as [->|Hu], Hv as [->|Hv]; auto.
  - exfalso. apply Hx. rewrite Hk. now apply List.in_map.
  - exfalso. apply Hx. rewrite <- Hk. now apply List.in_map.
Qed.

(** Two lists sorted by start, with the same elements and no start
    repeated, are the same list. *)
Lemma sorted_by_start_unique (l1 l2 : list Task) :
  StronglySorted (fun u v => startTime u <= startTime v) l1 ->
  StronglySorted (fun u v => startTime u <= startTime v) l2 ->
  Permutation l1 l2 -> List.NoDup (List.map startTime l1) -> l1 = l2.
Proof.
  revert l2. induction l1 as [|x r1 IH]; intros l2 H1 H2 Hp Hnd.
  - apply Permutation_nil in Hp. now subst.
  - destruct l2 as [|y r2].
    { symmetry in Hp. now apply Permutation_nil in Hp. }
    assert (Hxy : x = y).
    { assert (Hx : In x (y :: r2)) by (apply (Permutation_in _ Hp); now left).
      assert (Hy : In y (x :: r1))
        by (apply (Permutation_in _ (Permutation_sym Hp)); now left).
      destruct Hx as [Hx|Hx]; [now subst|].
      destruct Hy as [Hy|Hy]; [now subst|].
      apply StronglySorted_inv in H1 as [_ Hf1].
      apply StronglySorted_inv in H2 as [_ Hf2].
      rewrite List.Forall_forall in Hf1, Hf2.
      specialize (Hf1 y Hy). specialize (Hf2 x Hx).
      apply (NoDup_starts_inj (x :: r1)); [assumption | now left | now right | lia]. }
    subst y. f_equal. apply IH.
    + now apply StronglySorted_inv in H1.
    + now apply StronglySorted_inv in H2.
    + now apply Permutation_cons_inv in Hp.
    + simpl in Hnd. now apply List.NoDup_cons_iff in Hnd.
Qed.

(** X11.  The result depends only on the tasks that start on the day, and,
    when no two of them start at the same instant, not on the order of the
    collection. *)
Theorem getFreeSlots_order_independent :
  forall (tz : Z) (tasks tasks' : list Task) (dateStr dayStart dayEnd : Z),
    let onDay := fun t => isoDate (startTime t) =? dateStr in
    (List.filter onDay tasks' = List.filter onDay tasks ->
     getFreeSlots tz tasks' dateStr dayStart dayEnd
     = getFreeSlots tz tasks dateStr dayStart dayEnd)
    /\ (Permutation tasks tasks' ->
        List.NoDup (List.map startTime (List.filter onDay tasks)) ->
        getFreeSlots tz tasks' dateStr dayStart dayEnd
        = getFreeSlots tz tasks dateStr dayStart dayEnd).
Proof.
  intros tz tasks tasks' dateStr dayStart dayEnd onDay. split.
  - intros Heq. unfold getFreeSlots. fold onDay. now rewrite Heq.
  - intros Hp Hnd. unfold getFreeSlots. fold onDay.
    rewrite (sorted_by_start_unique (sortByStart (List.filter onDay tasks'))
               (sortByStart (List.filter onDay tasks))); [reflexivity | ..].
    + apply sortByStart_sorted.
    + apply sortByStart_sorted.
    + rewrite !sortByStart_perm. apply filter_Permutation. now symmetry.
    + eapply Permutation_NoDup; [|exact Hnd].
      apply Permutation_map. rewrite sortByStart_perm.
      now apply filter_Permutation.
Qed.

(** ** More on the reminder scheduler *)

Lemma map_unchanged {A : Type} (f : A -> A) (l : list A) :
  (forall x, In x l -> f x = x) -> List.map f l = l.
Proof.
  induction l as [|x l IH]; [reflexivity|]. intros H. simpl.
  rewrite (H x) by now left. f_equal. apply IH. intros y Hy. apply H. now right.
Qed.

(** X12.  A poll changes nothing but [reminderSent]: the collection keeps
    its length, each task keeps its place and every other field, and
    [reminderSent] only goes from [false] to [true].  A second poll at the
    same instant on the result is without effect. *)
Theorem checkReminders_only_marks :
  forall (now : Z) (tasks : list Task),
    let updated := fst (checkReminders now tasks) in
    length updated = length tasks
    /\ (forall (i : nat) (t t' : Task),
          tasks !! i = Some t -> updated !! i = Some t' ->
          (t' = t \/ (t' = markSent t /\ reminderSent t = false))
          /\ id t' = id t /\ title t' = title t
          /\ description t' = description t
          /\ startTime t' = startTime t /\ endTime t' = endTime t
          /\ completed t' = completed t /\ completedAt t' = completedAt t
          /\ category t' = category t /\ priority t' = priority t
          /\ color t' = color t /\ reminder t' = reminder t
          /\ (reminderSent t = true -> reminderSent t' = true))
    /\ checkReminders now updated = (updated, []).
Proof.
  intros now tasks updated. unfold updated. split; [|split].
  - rewrite checkReminders_updated. apply List.length_map.
  - intros i t t' Hi Hi'.
    rewrite checkReminders_updated, lookup_map, Hi in Hi'. simpl in Hi'.
    injection Hi' as <-. destruct (fires now t) eqn:E.
    + apply fires_spec in E. destruct E as (_ & _ & Hs & _).
      repeat split; auto.
    + repeat split; auto.
  - assert (Hnone : forall u, In u (fst (checkReminders now tasks)) ->
                              fires now u = false).
    { intros u Hu. rewrite checkReminders_updated in Hu.
      apply in_map_iff in Hu as (t & <- & _).
      destruct (fires now t) eqn:E; [apply (fires_markSent now) | exact E]. }
    rewrite (surjective_pairing (checkReminders now _)). f_equal.
    + rewrite (checkReminders_updated now (fst _)). apply map_unchanged.
      intros u Hu. now rewrite (Hnone u Hu).
    + rewrite checkReminders_sent. apply filter_none. exact Hnone.
Qed.

(** X13.  No reminder is missed: if some poll of a run falls in the 15
    minutes before the start of a task that has [reminder] and is not
    completed, then after the run the task is marked as notified, and a
    notification was sent for it during the run unless it was marked
    before. *)
Theorem polls_reach_due :
  forall (nows : list Z) (tasks : list Task) (i : nat) (t : Task) (now : Z),
    tasks !! i = Some t ->
    reminder t = true -> completed t = false ->
    In now nows -> 0 < startTime t - now <= 900000 ->
    fst (polls nows tasks) !! i = Some (markSent t)
    /\ (reminderSent t = false ->
        In t (List.concat (snd (polls nows tasks)))).
Proof.
  intros nows. induction nows as [|n later IH];
    intros tasks i t now Hi Hr Hc Hin Hw; [destruct Hin|].
  rewrite polls_cons. cbn [fst snd List.concat].
  assert (Hu : fst (checkReminders n tasks) !! i
               = Some (if fires n t then markSent t else t)).
  { now rewrite checkReminders_updated, lookup_map, Hi. }
  destruct (fires n t) eqn:E.
  - split.
    + apply polls_keep_sent; [assumption | reflexivity].
    + intros _. apply in_app_iff. left. rewrite checkReminders_sent.
      apply List.filter_In. split; [|assumption].
      apply list_elem_of_In. eapply list_elem_of_lookup_2. exact Hi.
  - destruct (reminderSent t) eqn:Hs.
    + split; [|discriminate].
      replace (markSent t) with t by (destruct t; simpl in *; now subst).
      now apply polls_keep_sent.
    + destruct Hin as [->|Hin].
      * exfalso. unfold fires in E. rewrite Hr, Hc, Hs in E. simpl in E.
        assert (dueSoon now t = true) by now apply dueSoon_ms.
        congruence.
      * destruct (IH _ i t now Hu Hr Hc Hin Hw) as [H1 H2].
        split; [assumption|]. intros _. apply in_app_iff. right. now apply H2.
Qed.

Lemma polls_reach_due_witness :
  fst (polls [at_ 8 0; at_ 8 50; at_ 9 30] [elevenToNoon; nineToTen]) !! 1%nat
  = Some (markSent nineToTen)
  /\ (reminderSent nineToTen = false ->
      In nineToTen
         (List.concat
            (snd (polls [at_ 8 0; at_ 8 50; at_ 9 30]
                        [elevenToNoon; nineToTen])))).
Proof.
  apply (polls_reach_due [at_ 8 0; at_ 8 50; at_ 9 30]
           [elevenToNoon; nineToTen] 1%nat nineToTen (at_ 8 50)).
  - reflexivity.
  - reflexivity.
  - reflexivity.
  - right. left. reflexivity.
  - vm_compute. split; [reflexivity | discriminate].
Defined.

Lemma tickTask_remind (formatTime : Z -> string) (now : Z) (t : Task) :
  tickedTask (tickTask formatTime now t) = fst (remind now t)
  /\ tickedSent (tickTask formatTime now t) = snd (remind now t)
  /\ tickedChanged (tickTask formatTime now t) = fires now t
  /\ length (tickedToasts (tickTask formatTime now t))
     = length (snd (remind now t)).
Proof.
  unfold tickTask, remind, fires.
  destruct (completed t || reminderSent t || negb (reminder t)); simpl; [auto|].
  destruct (dueSoon now t); simpl; auto.
Qed.

(** X14.  The reminder pass of the 30-second timer computes the collection
    and the notifications of [checkReminders]; it shows one toast for each
    notification; and when no task is due it hands back the collection it
    was given. *)
Theorem reminderTick_agrees :
  forall (formatTime : Z -> string) (now : Z) (prev : list Task),
    let result := reminderTick formatTime now prev in
    fst (fst result) = fst (checkReminders now prev)
    /\ snd (fst result) = snd (checkReminders now prev)
    /\ length (snd result) = length (snd (checkReminders now prev))
    /\ (snd (checkReminders now prev) = [] -> fst (fst result) = prev).
Proof.
  intros fT now prev result. unfold result, reminderTick. cbn [fst snd].
  rewrite !List.map_map.
  assert (Hstate : (if existsb tickedChanged (List.map (tickTask fT now) prev)
                    then List.map (fun x => tickedTask (tickTask fT now x)) prev
                    else prev)
                   = fst (checkReminders now prev)).
  { unfold checkReminders. cbn [fst].
    assert (Hmap : List.map (fun x => tickedTask (tickTask fT now x)) prev
                   = List.map (fun task => fst (remind now task)) prev).
    { apply List.map_ext. intros t. apply tickTask_remind. }
    rewrite Hmap. destruct (existsb _ _) eqn:E; [reflexivity|].
    symmetry. apply map_unchanged. intros t Ht. rewrite remind_fires.
    destruct (fires now t) eqn:Ef; [|reflexivity]. exfalso.
    assert (existsb tickedChanged (List.map (tickTask fT now) prev) = true);
      [|congruence].
    apply existsb_exists. exists (tickTask fT now t).
    split; [now apply List.in_map|].
    now rewrite (proj1 (proj2 (proj2 (tickTask_remind fT now t)))). }
  assert (Hsent : List.concat
                    (List.map (fun x => tickedSent (tickTask fT now x)) prev)
                  = snd (checkReminders now prev)).
  { unfold checkReminders. cbn [snd]. f_equal. apply List.map_ext.
    intros t. apply tickTask_remind. }
  split; [exact Hstate|]. split; [exact Hsent|]. split.
  - unfold checkReminders. cbn [snd]. clear Hstate Hsent result.
    induction prev as [|t l IH]; [reflexivity|]. simpl.
    rewrite !length_app. f_equal; [apply tickTask_remind|].
    apply IH.
  - intros Hnone. rewrite Hstate, checkReminders_updated.
    apply map_unchanged. intros t Ht.
    destruct (fires now t) eqn:Ef; [|reflexivity]. exfalso.
    rewrite checkReminders_sent in Hnone.
    assert (In t (List.filter (fires now) prev))
      by (apply List.filter_In; now split).
    rewrite Hnone in H. destruct H.
Qed.

Lemma pollsShown_cons (formatTime : Z -> string) (now : Z) (browser : Browser)
    (later : list (Z * Browser)) (tasks : list Task) :
  pollsShown formatTime ((now, browser) :: later) tasks
  = (fst (pollsShown formatTime later (fst (checkReminders now tasks))),
     List.flat_map (sendNotification formatTime browser)
                   (snd (checkReminders now tasks))
     ++ snd (pollsShown formatTime later (fst (checkReminders now tasks)))).
Proof.
  cbn [pollsShown]. destruct (checkReminders now tasks) as [updated sent].
  cbn [fst snd]. now destruct (pollsShown formatTime later updated).
Qed.

Lemma sendNotification_tags (formatTime : Z -> string) (browser : Browser)
    (sent : list Task) :
  List.map tag (List.flat_map (sendNotification formatTime browser) sent)
  = if hasNotification browser && String.eqb (permission browser) "granted"
    then List.map id sent else [].
Proof.
  induction sent as [|t l IH]; simpl.
  - now destruct (_ && _).
  - rewrite List.map_app, IH. unfold sendNotification.
    now destruct (_ && _).
Qed.

(** The collection after polls with browsers is the one of [polls], and
    the tags of the notifications created are ids of the tasks notified,
    in order. *)
Lemma pollsShown_polls (formatTime : Z -> string) (ticks : list (Z * Browser))
    (tasks : list Task) :
  fst (pollsShown formatTime ticks tasks)
  = fst (polls (List.map fst ticks) tasks)
  /\ List.map tag (snd (pollsShown formatTime ticks tasks))
     `sublist_of`
     List.map id (List.concat (snd (polls (List.map fst ticks) tasks))).
Proof.
  revert tasks. induction ticks as [|[now browser] later IH]; intros tasks.
  - split; [reflexivity | constructor].
  - rewrite pollsShown_cons. cbn [List.map fst]. rewrite polls_cons.
    cbn [fst snd List.concat].
    destruct (IH (fst (checkReminders now tasks))) as [IH1 IH2].
    split; [exact IH1|].
    rewrite !List.map_app, sendNotification_tags.
    apply sublist_app; [|exact IH2].
    destruct (_ && _); [reflexivity | apply sublist_nil_l].
Qed.

Lemma sublist_NoDup {A : Type} (k l : list A) :
  k `sublist_of` l -> List.NoDup l -> List.NoDup k.
Proof.
  induction 1 as [|x k l Hkl IH|x k l Hkl IH]; intros Hnd.
  - constructor.
  - apply List.NoDup_cons_iff in Hnd as [Hx Hnd]. constructor; [|auto].
    intros Hin. apply Hx. apply list_elem_of_In.
    eapply elem_of_sublist; [|exact Hkl]. now apply list_elem_of_In.
  - apply List.NoDup_cons_iff in Hnd as [_ Hnd]. auto.
Qed.

(** X15.  With distinct task ids, the notifications created over a run of
    polls carry pairwise distinct tags, whatever the permissions.  And a
    reminder that comes due while the permission is missing is lost: the
    task is marked as notified, and no notification with its tag is
    created at that poll or at any later one. *)
Theorem pollsShown_once_or_never :
  forall (formatTime : Z -> string) (ticks : list (Z * Browser))
         (tasks : list Task),
    List.NoDup (List.map id tasks) ->
    List.NoDup (List.map tag (snd (pollsShown formatTime ticks tasks)))
    /\ (forall (now : Z) (browser : Browser) (i : nat) (t : Task),
          hasNotification browser && String.eqb (permission browser) "granted"
          = false ->
          tasks !! i = Some t -> Due now t ->
          fst (pollsShown formatTime ((now, browser) :: ticks) tasks) !! i
          = Some (markSent t)
          /\ ~ In (id t)
                 (List.map tag
                    (snd (pollsShown formatTime ((now, browser) :: ticks)
                                     tasks)))).
Proof.
  intros fT ticks tasks Hnd. split.
  - eapply sublist_NoDup; [apply pollsShown_polls|].
    now apply polls_fire_once.
  - intros now browser i t Hdenied Hi Hd.
    assert (Hf : fires now t = true) by now apply fires_spec.
    rewrite pollsShown_cons. cbn [fst snd]. split.
    + rewrite (proj1 (pollsShown_polls fT ticks _)).
      apply polls_keep_sent; [|reflexivity].
      rewrite checkReminders_updated, lookup_map, Hi. simpl. now rewrite Hf.
    + rewrite List.map_app, sendNotification_tags, Hdenied. cbn [app].
      intros Hin. apply list_elem_of_In in Hin.
      pose proof (elem_of_sublist _ _ _ Hin
                    (proj2 (pollsShown_polls fT ticks _))) as Hin'.
      apply list_elem_of_In, in_map_iff in Hin' as (u & Hid & Hu).
      apply polls_sent_from in Hu as [Hu Hs].
      apply unsent_after_poll in Hu as [Hu Hfu]; [|assumption].
      assert (u = t); [|congruence].
      apply (NoDup_ids_inj tasks); try assumption.
      apply list_elem_of_In. eapply list_elem_of_lookup_2. exact Hi.
Qed.

Lemma pollsShown_once_or_never_witness :
  List.NoDup
    (List.map tag
       (snd (pollsShown (fun _ => "")
               [(at_ 8 50, mkBrowser true "granted");
                (at_ 10 50, mkBrowser true "denied")]
               [nineToTen; elevenToNoon]))).
Proof.
  apply (pollsShown_once_or_never (fun _ => "")
           [(at_ 8 50, mkBrowser true "granted");
            (at_ 10 50, mkBrowser true "denied")]
           [nineToTen; elevenToNoon]).
  repeat constructor; simpl; intuition discriminate.
Defined.

(** ** More on the intent resolver *)

Lemma digitValue_digit (c : ascii) :
  isDigit c = true -> 0 <= digitValue c <= 9.
Proof.
  unfold isDigit, digitValue. rewrite andb_true_iff, !Nat.leb_le. lia.
Qed.

Lemma parseIntFrom_nonneg (s : string) (acc : Z) :
  allDigits s = true -> 0 <= acc -> 0 <= parseIntFrom acc s.
Proof.
  revert acc. induction s as [|c r IH]; intros acc Hs Hacc; [exact Hacc|].
  simpl in *. apply andb_true_iff in Hs as [Hc Hr].
  apply IH; [assumption|]. pose proof (digitValue_digit c Hc). lia.
Qed.

Lemma parseInt_two_digits (s : string) :
  allDigits s = true -> (String.length s <= 2)%nat -> 0 <= parseInt s <= 99.
Proof.
  destruct s as [|c1 [|c2 [|c3 r]]]; cbn [allDigits String.length];
    intros Hs Hlen; unfold parseInt; cbn [parseIntFrom]; try lia.
  - rewrite andb_true_r in Hs.
    pose proof (digitValue_digit c1 Hs). lia.
  - rewrite andb_true_r in Hs. apply andb_true_iff in Hs as [H1 H2].
    pose proof (digitValue_digit c1 H1). pose proof (digitValue_digit c2 H2). lia.
Qed.

Lemma digitsUpTo_digits (n : nat) (s : string) :
  allDigits (fst (digitsUpTo n s)) = true
  /\ (String.length (fst (digitsUpTo n s)) <= n)%nat.
Proof.
  revert s. induction n as [|k IH]; intros [|c r]; simpl; try (split; [reflexivity | lia]).
  destruct (isDigit c) eqn:Hc; [|split; [reflexivity | simpl; lia]].
  specialize (IH r). destruct (digitsUpTo k r) as [ds rest]. simpl in *.
  rewrite Hc. split; [apply IH | lia].
Qed.

Lemma digits_digits (s : string) : allDigits (fst (digits s)) = true.
Proof.
  induction s as [|c r IH]; [reflexivity|]. simpl.
  destruct (isDigit c) eqn:Hc; [|reflexivity].
  destruct (digits r) as [ds rest]. simpl in *. now rewrite Hc.
Qed.

Lemma colonMinutes_digits (s x rest : string) :
  colonMinutes s = (Some x, rest) -> 0 <= parseInt x <= 99.
Proof.
  unfold colonMinutes. destruct s as [|c r]; [discriminate|].
  destruct (Ascii.eqb c ":") eqn:Ec.
  - apply Ascii.eqb_eq in Ec. subst c.
    pose proof (digitsUpTo_digits 2 r) as [Hd Hl].
    destruct (digitsUpTo 2 r) as [ds r']. simpl in *.
    destruct (String.length ds =? 2)%nat; [|discriminate].
    intros [= <- _]. now apply parseInt_two_digits.
  - destruct c as [[] [] [] [] [] [] [] []]; try discriminate.
Qed.

Lemma timeAt_bounds (s rest : string) m :
  timeAt s = Some (m, rest) ->
  0 <= hour (toTime m) <= 111 /\ 0 <= min (toTime m) <= 99.
Proof.
  unfold timeAt. pose proof (digitsUpTo_digits 2 s) as [Hd Hl].
  destruct (digitsUpTo 2 s) as [m1 r1]. simpl in *.
  destruct m1 as [|c m1']; [discriminate|].
  destruct (colonMinutes r1) as [m2 r2] eqn:Ecm.
  destruct (optAmPm (skipSpaces r2)) as [m3 r3].
  intros [= <- _].
  pose proof (parseInt_two_digits _ Hd Hl) as Hh.
  assert (Hm : 0 <= parseInt (match m2 with Some x => x | None => "0" end) <= 99).
  { destruct m2 as [x|]; [now apply (colonMinutes_digits r1 x r2)|].
    vm_compute. split; discriminate. }
  unfold toTime. cbn [hour min].
  split; [|exact Hm].
  destruct (isText m3 "pm" && negb (parseInt (String c m1') =? 12));
    destruct (isText m3 "am" && _); lia.
Qed.

Lemma execAllFrom_In {A : Type} (f : string -> option (A * string))
    (k : nat) (s : string) (a : A) :
  In a (execAllFrom f k s) -> exists suf rest, f suf = Some (a, rest).
Proof.
  revert k. induction s as [|c r IH]; intros k; [intros []|].
  cbn [execAllFrom]. destruct k as [|k]; [|apply IH].
  destruct (f (String c r)) as [[a' rest]|] eqn:E; [|apply IH].
  intros [<-|Hin]; [eauto | now apply (IH _ Hin)].
Qed.

Lemma scanTimes_bounds (lower : string) :
  List.Forall (fun t => 0 <= hour t <= 111 /\ 0 <= min t <= 99)
              (scanTimes lower).
Proof.
  apply List.Forall_forall. intros t Ht. unfold scanTimes in Ht.
  apply in_map_iff in Ht as (m & <- & Hm).
  apply execAllFrom_In in Hm as (suf & rest & Hm).
  now apply (timeAt_bounds suf rest).
Qed.

Lemma search_Some {A : Type} (f : string -> option (A * string))
    (s : string) (a : A) :
  search f s = Some a -> exists suf rest, f suf = Some (a, rest).
Proof.
  induction s as [|c r IH]; cbn [search].
  - destruct (f EmptyString) as [[a' rest]|] eqn:E; [|discriminate].
    intros [= <-]. eauto.
  - destruct (f (String c r)) as [[a' rest]|] eqn:E; [|exact IH].
    intros [= <-]. eauto.
Qed.

Lemma scanDuration_nonneg (lower : string) : 0 <= scanDuration lower.
Proof.
  unfold scanDuration. destruct (search durationAt lower) as [[n unit]|] eqn:E; [|lia].
  apply search_Some in E as (suf & rest & E).
  assert (Hn : 0 <= parseInt n).
  { unfold durationAt in E. pose proof (digits_digits suf) as Hd.
    destruct (digits suf) as [ds r1]. simpl in Hd.
    destruct ds; [discriminate|].
    destruct (alt _ _) as [[u r2]|]; [|discriminate].
    injection E as <- _ _. now apply parseIntFrom_nonneg. }
  destruct (startsWith unit "h"); lia.
Qed.

(** X16.  Whatever the message, a draft returned by the resolver comes
    with [success] and without [conflict]; it does not conflict with the
    collection; it ends the scanned duration after its start, hence never
    before it; it starts on the target day at an hour up to 111 and a
    minute up to 99 past local midnight, the two numbers being taken as
    scanned; and it is new: generated id, not completed, reminder on and
    not yet sent.  No draft comes without [success]. *)
Theorem parseTaskFromNL_draft :
  forall (tz : Z) (formatTime formatDay : Z -> string) (newId message : string)
         (tasks : list Task) (selectedDate : Z),
    let lower := toLowerCase message in
    let r := parseTaskFromNL tz formatTime formatDay newId message tasks
                             selectedDate in
    (success r = true <-> task r <> None)
    /\ (forall t, task r = Some t ->
          success r = true /\ conflict r = None
          /\ checkConflict tasks (startTime t) (endTime t) None = false
          /\ endTime t = startTime t + scanDuration lower * 60000
          /\ startTime t <= endTime t
          /\ (exists h m, hd_error (scanTimes lower) = Some (mkTime h m)
                /\ 0 <= h <= 111 /\ 0 <= m <= 99
                /\ startTime t
                   = localMidnight tz (shiftDate lower selectedDate)
                     + h * msPerHour + m * msPerMinute)
          /\ id t = newId /\ completed t = false /\ completedAt t = None
          /\ reminder t = true /\ reminderSent t = false
          /\ priority t = "medium").
Proof.
  intros tz fT fD newId message tasks D lower r. unfold r, parseTaskFromNL.
  fold lower. pose proof (scanTimes_bounds lower) as Hb.
  pose proof (scanDuration_nonneg lower) as Hdur.
  destruct (scanTimes lower) as [|[h m] later].
  - simpl. split; [split; [discriminate | intros H; now contradiction H]|].
    discriminate.
  - apply List.Forall_cons_iff in Hb as [[Hh Hm] _]. simpl in Hh, Hm.
    destruct (checkConflict tasks _ _ None) eqn:Ec; cbn [success task conflict].
    + split; [split; [discriminate | intros H; now contradiction H]|].
      discriminate.
    + split; [split; [discriminate | reflexivity]|].
      intros t [= <-]. cbn [startTime endTime id completed completedAt reminder
                            reminderSent priority].
      repeat split; try assumption; try lia.
      exists h, m. repeat split; try lia.
Qed.

(** X17.  Resolving the same message again after the draft was added to
    the collection ends in the conflict failure, provided the scanned
    duration is not zero. *)
Theorem parseTaskFromNL_twice_conflicts :
  forall (tz : Z) (formatTime formatDay : Z -> string)
         (newId newId' message : string) (tasks : list Task)
         (selectedDate : Z) (t : Task),
    task (parseTaskFromNL tz formatTime formatDay newId message tasks
                          selectedDate) = Some t ->
    scanDuration (toLowerCase message) <> 0 ->
    let r' := parseTaskFromNL tz formatTime formatDay newId' message
                              (appendTask tasks t) selectedDate in
    success r' = false /\ conflict r' = Some true /\ task r' = None.
Proof.
  intros tz fT fD newId newId' message tasks D t Ht Hdur r'.
  pose proof (scanDuration_nonneg (toLowerCase message)) as Hnn.
  unfold r'. unfold parseTaskFromNL in *.
  destruct (scanTimes (toLowerCase message)) as [|[h m] later]; [discriminate|].
  destruct (checkConflict tasks _ _ None) eqn:Ec; [discriminate|].
  injection Ht as <-.
  set (dur := scanDuration (toLowerCase message)) in *.
  set (from := setHours tz (shiftDate (toLowerCase message) D) h m) in *.
  set (t := mkTask newId _ _ from (from + dur * 60000) _ _ _ _ _ _ _).
  assert (Hov : checkConflict (appendTask tasks t) from (from + dur * 60000) None
                = true).
  { unfold appendTask. rewrite checkConflict_app, Ec.
    unfold checkConflict, overlaps, t. simpl.
    replace (from <? from + dur * 60000) with true
      by (symmetry; apply Z.ltb_lt; lia).
    replace (from + dur * 60000 >? from) with true
      by (symmetry; apply Z.gtb_gt; lia).
    reflexivity. }
  rewrite Hov. repeat split.
Qed.

Lemma parseTaskFromNL_twice_conflicts_witness :
  conflict (parseTaskFromNL 0 (fun _ => "") (fun _ => "") "id2" minuteReview
              (appendTask []
                 (mkTask "id1" "30 minute review" "Added via AI assistant"
                         (at_ 30 0) (at_ 30 30) false None "work" "medium"
                         "#4A90D9" true false)) 0)
  = Some true.
Proof.
  apply (parseTaskFromNL_twice_conflicts 0 (fun _ => "") (fun _ => "")
           "id1" "id2" minuteReview [] 0).
  - reflexivity.
  - vm_compute. discriminate.
Defined.

Lemma trimStart_head (s : string) :
  match trimStart s with
  | String c _ => isSpace c = false
  | EmptyString => True
  end.
Proof.
  induction s as [|c r IH]; simpl; [exact I|].
  destruct (isSpace c) eqn:E; [exact IH | exact E].
Qed.

Lemma trimEnd_cons (c : ascii) (r : string) :
  isSpace c = false -> trimEnd (String c r) = String c (trimEnd r).
Proof. intros Hc. simpl. rewrite Hc. now destruct (trimEnd r). Qed.

Lemma trimEnd_idempotent (s : string) : trimEnd (trimEnd s) = trimEnd s.
Proof.
  induction s as [|c r IH]; [reflexivity|]. cbn [trimEnd].
  destruct (trimEnd r) as [|d r'] eqn:E.
  - destruct (isSpace c) eqn:Hc; [reflexivity|]. simpl. now rewrite Hc.
  - cbn [trimEnd]. cbn [trimEnd] in IH. now rewrite IH.
Qed.

(** A text that [trim] returned, if not empty, starts with a character
    that is no space and is not changed by [trimEnd]. *)
Lemma trim_cons (s : string) (c : ascii) (r : string) :
  trim s = String c r -> isSpace c = false /\ trimEnd r = r.
Proof.
  unfold trim. intros H. pose proof (trimStart_head s) as Hh.
  pose proof (trimEnd_idempotent (trimStart s)) as Hi. rewrite H in Hi.
  destruct (trimStart s) as [|d x]; [discriminate|].
  rewrite (trimEnd_cons d x Hh) in H. injection H as -> Hr.
  split; [assumption|]. rewrite trimEnd_cons in Hi by assumption.
  now injection Hi.
Qed.

Lemma upperChar_shape (c : ascii) :
  isLower (upperChar c) = false /\ isSpace (upperChar c) = isSpace c.
Proof. destruct c as [[] [] [] [] [] [] [] []]; split; reflexivity. Qed.

(** X18.  The title of a draft is never empty, has no white space at
    either end (it is its own [trim]), and does not start with a
    lower-case letter. *)
Theorem extractTitle_shape :
  forall message : string,
    exists c r, extractTitle message = String c r
                /\ isLower c = false /\ isSpace c = false
                /\ trim (extractTitle message) = extractTitle message.
Proof.
  intros message. unfold extractTitle.
  destruct (trim _) as [|c r] eqn:E.
  - exists "N"%char, "ew Task". repeat split.
  - apply trim_cons in E as [Hc Hr].
    destruct (upperChar_shape c) as [Hl Hs]. rewrite Hc in Hs.
    exists (upperChar c), r. repeat split; try assumption.
    unfold trim. cbn [trimStart]. rewrite Hs.
    rewrite trimEnd_cons by assumption. now rewrite Hr.
Qed.

(** X19.  The category of a draft is one of the four keys of the category
    table, and its colour is the one the table of the resolver gives for
    that key, never the undefined one. *)
Theorem parseTaskFromNL_category :
  forall (tz : Z) (formatTime formatDay : Z -> string) (newId message : string)
         (tasks : list Task) (selectedDate : Z) (t : Task),
    task (parseTaskFromNL tz formatTime formatDay newId message tasks
                          selectedDate) = Some t ->
    title t = extractTitle message
    /\ category t = detectCategory (title t)
    /\ In (category t) categoryKeys
    /\ color t = colors (category t)
    /\ In (color t) ["#4A90D9"; "#5BB97B"; "#7C5CBF"; "#94A3B8"].
Proof.
  intros tz fT fD newId message tasks D t. unfold parseTaskFromNL.
  destruct (scanTimes _) as [|[h m] later]; [discriminate|].
  destruct (checkConflict _ _ _ _); [discriminate|].
  intros [= <-]. cbn [title category color].
  split; [reflexivity|]. split; [reflexivity|].
  unfold detectCategory.
  destruct (test (altCI workWords) _), (test (altCI healthWords) _),
           (test (altCI personalWords) _); simpl; intuition.
Qed.

Lemma parseTaskFromNL_category_witness :
  In (category
        (mkTask "id" "30 minute review" "Added via AI assistant"
                (at_ 30 0) (at_ 30 30) false None "work" "medium" "#4A90D9"
                true false))
     categoryKeys.
Proof.
  apply (parseTaskFromNL_category 0 (fun _ => "") (fun _ => "") "id"
           minuteReview [] 0).
  reflexivity.
Defined.

Lemma execAllFrom_skip_all {A : Type} (f : string -> option (A * string))
    (k : nat) (s : string) :
  (String.length s <= k)%nat -> execAllFrom f k s = [].
Proof.
  revert k. induction s as [|c r IH]; intros k Hk; [reflexivity|].
  simpl in Hk. destruct k as [|k]; [lia|]. cbn [execAllFrom]. apply IH. lia.
Qed.

(** A match that runs to the end of the text is the only one. *)
Lemma execAll_whole {A : Type} (f : string -> option (A * string))
    (s : string) (a : A) :
  f s = Some (a, EmptyString) -> s <> EmptyString -> execAll f s = [a].
Proof.
  intros Hf Hs. unfold execAll. destruct s as [|c r]; [congruence|].
  cbn [execAllFrom]. rewrite Hf. f_equal.
  apply execAllFrom_skip_all. unfold matchTail. simpl. lia.
Qed.

Lemma timeAt_hh_mm (c1 c2 c3 c4 : ascii) :
  isDigit c1 = true -> isDigit c2 = true ->
  isDigit c3 = true -> isDigit c4 = true ->
  timeAt (String c1 (String c2 (String ":" (String c3 (String c4 "")))))
  = Some ((String c1 (String c2 ""), Some (String c3 (String c4 "")), None),
          EmptyString).
Proof.
  intros H1 H2 H3 H4. unfold timeAt.
  assert (E1 : digitsUpTo 2
                 (String c1 (String c2 (String ":" (String c3 (String c4 "")))))
               = (String c1 (String c2 ""),
                  String ":" (String c3 (String c4 "")))).
  { cbn [digitsUpTo]. now rewrite H1, H2. }
  rewrite E1.
  assert (E2 : colonMinutes (String ":" (String c3 (String c4 "")))
               = (Some (String c3 (String c4 "")), EmptyString)).
  { unfold colonMinutes. cbn [digitsUpTo]. now rewrite H3, H4. }
  rewrite E2. reflexivity.
Qed.

(** Two digits, a colon, two digits: one time, with that hour and that
    minute. *)
Lemma scanTimes_hh_mm (c1 c2 c3 c4 : ascii) :
  isDigit c1 = true -> isDigit c2 = true ->
  isDigit c3 = true -> isDigit c4 = true ->
  scanTimes (toLowerCase
               (String c1 (String c2 (String ":" (String c3 (String c4 ""))))))
  = [mkTime (parseInt (String c1 (String c2 "")))
            (parseInt (String c3 (String c4 "")))].
Proof.
  intros H1 H2 H3 H4. cbn [toLowerCase].
  rewrite (lowerChar_digit c1 H1), (lowerChar_digit c2 H2),
    (lowerChar_digit c3 H3), (lowerChar_digit c4 H4).
  change (lowerChar ":") with ":"%char.
  unfold scanTimes.
  rewrite (execAll_whole timeAt _ _ (timeAt_hh_mm c1 c2 c3 c4 H1 H2 H3 H4))
    by discriminate.
  reflexivity.
Qed.

(** The two characters printed for a number below 100. *)
Lemma padStart2_two_digits (k : Z) :
  0 <= k < 100 ->
  exists c1 c2, padStart2 (numToString k) = String c1 (String c2 "")
                /\ isDigit c1 = true /\ isDigit c2 = true
                /\ parseInt (String c1 (String c2 "")) = k.
Proof.
  intros Hk.
  set (ok := fun n : nat =>
    match padStart2 (numToString (Z.of_nat n)) with
    | String c1 (String c2 EmptyString) =>
        isDigit c1 && isDigit c2
        && (parseInt (String c1 (String c2 "")) =? Z.of_nat n)
    | _ => false
    end).
  assert (Hall : forallb ok (seq 0 (Z.to_nat 100)) = true)
    by (vm_compute; reflexivity).
  rewrite forallb_forall in Hall. specialize (Hall (Z.to_nat k)).
  assert (Hin : In (Z.to_nat k) (seq 0 (Z.to_nat 100))) by (apply in_seq; lia).
  specialize (Hall Hin). unfold ok in Hall.
  rewrite Z2Nat.id in Hall by lia.
  destruct (padStart2 (numToString k)) as [|c1 [|c2 [|c3 r]]]; try discriminate.
  apply andb_true_iff in Hall as [Hd Hp]. apply andb_true_iff in Hd as [Hd1 Hd2].
  apply Z.eqb_eq in Hp. now exists c1, c2.
Qed.

(** X20.  A time of day printed by [minutesToTime], for a number of
    minutes below 100 hours, has five characters, and the time scan of the
    resolver reads it back as the same hour and minute. *)
Theorem minutesToTime_scanTimes :
  forall minutes : Z,
    0 <= minutes < 6000 ->
    String.length (minutesToTime minutes) = 5%nat
    /\ scanTimes (toLowerCase (minutesToTime minutes))
       = [mkTime (minutes / 60) (minutes mod 60)].
Proof.
  intros minutes Hm. unfold minutesToTime.
  assert (Hrem : Z.rem minutes 60 = minutes mod 60)
    by (apply Z.rem_mod_nonneg; lia).
  rewrite Hrem.
  destruct (padStart2_two_digits (minutes / 60)) as (c1 & c2 & -> & H1 & H2 & Hh).
  { Z.to_euclidean_division_equations. lia. }
  destruct (padStart2_two_digits (minutes mod 60)) as (c3 & c4 & -> & H3 & H4 & Hmi).
  { Z.to_euclidean_division_equations. lia. }
  cbn [append]. split; [reflexivity|].
  now rewrite scanTimes_hh_mm, Hh, Hmi.
Qed.

Lemma minutesToTime_scanTimes_witness :
  String.length (minutesToTime 605) = 5%nat
  /\ scanTimes (toLowerCase (minutesToTime 605)) = [mkTime (605 / 60) (605 mod 60)].
Proof. apply (minutesToTime_scanTimes 605). lia. Defined.

(** ** The add-task form *)




(** ** The counts of the analytics view *)

Lemma categoryCount_cons (t : Task) (l : list Task) (key : string) :
  categoryCount (t :: l) key
  = (if String.eqb (category t) key then 1 else 0) + categoryCount l key.
Proof.
  unfold categoryCount. simpl. destruct (String.eqb (category t) key); simpl; lia.
Qed.

Lemma categoryCount_nonneg (l : list Task) (key : string) :
  0 <= categoryCount l key.
Proof. unfold categoryCount. lia. Qed.

Lemma totalCats_sum (tasks : list Task) :
  totalCats tasks
  = categoryCount tasks "work" + categoryCount tasks "health"
    + categoryCount tasks "personal" + categoryCount tasks "general".
Proof.
  unfold totalCats, catBreakdown, categoryKeys. cbn [List.map List.filter snd].
  pose proof (categoryCount_nonneg tasks "work").
  pose proof (categoryCount_nonneg tasks "health").
  pose proof (categoryCount_nonneg tasks "personal").
  pose proof (categoryCount_nonneg tasks "general").
  destruct (categoryCount tasks "work" >? 0) eqn:E1;
  destruct (categoryCount tasks "health" >? 0) eqn:E2;
  destruct (categoryCount tasks "personal" >? 0) eqn:E3;
  destruct (categoryCount tasks "general" >? 0) eqn:E4;
  cbn [fold_left snd];
  repeat match goal with
         | E : (_ >? 0) = false |- _ =>
             rewrite Z.gtb_ltb in E; apply Z.ltb_ge in E
         end; lia.
Qed.

(** X22.  The total of the category chart counts exactly the tasks whose
    category is one of the four keys of the table, so tasks of any other
    category are left out of it; the chart lists only keys of the table
    with a positive count; and of the tasks of today no more are counted
    completed than there are. *)
Theorem analytics_counts :
  forall (todayStr2 : Z) (tasks : list Task),
    totalCats tasks
    = Z.of_nat (length (List.filter
                          (fun t => existsb (String.eqb (category t))
                                            categoryKeys) tasks))
    /\ List.Forall (fun c => In (fst c) categoryKeys /\ 0 < snd c
                             /\ snd c = categoryCount tasks (fst c))
                   (catBreakdown tasks)
    /\ 0 <= completedToday todayStr2 tasks <= totalToday todayStr2 tasks
    /\ totalToday todayStr2 tasks <= Z.of_nat (length tasks).
Proof.
  intros today tasks. split; [|split; [|split]].
  - rewrite totalCats_sum.
    set (known := fun t => existsb (String.eqb (category t)) categoryKeys).
    induction tasks as [|t l IH]; [reflexivity|].
    rewrite !categoryCount_cons. cbn [List.filter].
    replace (known t)
      with (String.eqb (category t) "work" || String.eqb (category t) "health"
            || String.eqb (category t) "personal"
            || String.eqb (category t) "general")
      by (unfold known; simpl; now rewrite orb_false_r, !orb_assoc).
    destruct (String.eqb (category t) "work") eqn:E1;
    destruct (String.eqb (category t) "health") eqn:E2;
    destruct (String.eqb (category t) "personal") eqn:E3;
    destruct (String.eqb (category t) "general") eqn:E4;
    repeat match goal with
           | E : String.eqb _ _ = true |- _ => apply String.eqb_eq in E
           end;
    try congruence; cbn [orb length]; lia.
  - unfold catBreakdown. apply List.Forall_forall. intros c Hc.
    apply List.filter_In in Hc as [Hc Hpos].
    apply in_map_iff in Hc as (key & <- & Hkey). simpl in *.
    apply Z.gtb_gt in Hpos. repeat split; [assumption | lia].
  - unfold completedToday, totalToday.
    pose proof (List.filter_length_le completed (todayTasks today tasks)). lia.
  - unfold totalToday, todayTasks.
    pose proof (List.filter_length_le
                  (fun t => isoDate (startTime t) =? today) tasks). lia.
Qed.
